(** * litterboxd: the subscription and deduplication engine

    A shallow embedding of [litterboxd.py]: the two registries
    ([subscribed_users], [last_logged_movies]), their JSON persistence
    ([load_data], [save_data]), the feed reader ([get_latest_movies]), the
    command handlers ([subscribe], [unsubscribe], [list_subscriptions]) and
    the polling pass ([check_for_new_movies]).

    Python dictionaries keep insertion order and the polling pass iterates
    over one, so a dictionary is an association list with the update
    discipline of [dict]: assignment to a present key replaces the value in
    place, assignment to a new key appends the item.

    The handlers talk to three collaborators that the module does not
    control: feedparser, the Telegram bot and the file system.  Their answers
    are given by an environment of oracles indexed by a clock that advances on
    every call; an exception raised by a collaborator propagates, since the
    module contains no [try] block. *)

From Stdlib Require Import List String Ascii ZArith Lia Bool Arith.
From Stdlib Require Import DecimalString FinFun.
Import ListNotations.

Local Open Scope string_scope.
Local Open Scope list_scope.

(** ** Keys with decidable equality *)

(** What a dictionary asks of its keys: a test for equality. *)
Class Hashable (K : Type) := { keq : K -> K -> bool }.

(** The test decides equality. *)
Class HashableLaws (K : Type) `{Hashable K} := {
  keq_spec : forall a b : K, reflect (a = b) (keq a b)
}.

#[export] Instance string_hashable : Hashable string := {| keq := String.eqb |}.

(** A Telegram chat id is an [int]; after a reload from JSON the keys of
    [subscribed_users] are [str]. *)
Inductive key : Type :=
| KInt (n : Z)
| KStr (s : string).

Definition key_eqb (a b : key) : bool :=
  match a, b with
  | KInt m, KInt n => Z.eqb m n
  | KStr s, KStr t => String.eqb s t
  | _, _ => false
  end.

#[export] Instance key_hashable : Hashable key := {| keq := key_eqb |}.

(** ** Python dictionaries *)

Module PyDict.
Section Dict.
Context {K V : Type} `{Hashable K}.

Definition dict := list (K * V).

Definition keys (d : dict) : list K := map fst d.

(** [d.get(k)] *)
Fixpoint get (k : K) (d : dict) : option V :=
  match d with
  | [] => None
  | (k', v) :: rest => if keq k k' then Some v else get k rest
  end.

(** [k in d] *)
Definition mem (k : K) (d : dict) : bool :=
  match get k d with Some _ => true | None => false end.

(** [d[k] = v] *)
Fixpoint set (k : K) (v : V) (d : dict) : dict :=
  match d with
  | [] => [(k, v)]
  | (k', v') :: rest =>
      if keq k k' then (k', v) :: rest else (k', v') :: set k v rest
  end.

(** [del d[k]], used under [if k in d]: the item under [k] goes, and a
    dictionary holds at most one. *)
Fixpoint del (k : K) (d : dict) : dict :=
  match d with
  | [] => []
  | (k', v') :: rest => if keq k k' then del k rest else (k', v') :: del k rest
  end.

(** Number of items stored under [k]. *)
Definition entries_for (k : K) (d : dict) : nat :=
  List.length (filter (fun kv => keq k (fst kv)) d).

(** The keys of a dictionary are pairwise distinct. *)
Definition wf (d : dict) : Prop := NoDup (keys d).

(** [dict(pairs)]: later pairs win, the first occurrence fixes the place. *)
Definition of_pairs (ps : list (K * V)) : dict :=
  fold_left (fun d kv => set (fst kv) (snd kv) d) ps [].

End Dict.
Arguments dict : clear implicits.
End PyDict.

(** ** JSON objects as [json.dump] writes them and [json.load] reads them *)

Module Json.

(** The text of a JSON object whose values are strings, as the sequence of
    its members: names are always strings. *)
Definition object := list (string * string).

(** [str(n)] for a Python [int]. *)
Definition str_of_int (n : Z) : string := NilZero.string_of_int (Z.to_int n).

(** The encoder turns an [int] key into its decimal text and keeps a [str]
    key. *)
Definition key_name (k : key) : string :=
  match k with
  | KInt n => str_of_int n
  | KStr s => s
  end.

Definition dump {K} (name : K -> string) (d : PyDict.dict K string) : object :=
  map (fun kv => (name (fst kv), snd kv)) d.

(** The decoder builds a [dict] whose keys are [str]. *)
Definition load (o : object) : PyDict.dict string string := PyDict.of_pairs o.

End Json.

(** ** The collaborators *)

(** An entry of a parsed feed that has a title and a link; on an entry
    without one the attribute access of [get_latest_movies] raises, which is
    outside this model. *)
Record entry := { title : string; link : string }.

(** What [save_data] meets when it opens its two files for writing. *)
Inductive save_fault :=
| WriteOk
| UsersOpenFails      (* open('users.json', 'w') raises *)
| LastOpenFails.      (* open('last_logged_movies.json', 'w') raises *)

Record Env := {
  (** [feedparser.parse(url).entries] at a given time; a failed fetch is a
      result without entries *)
  feed : nat -> string -> list entry;
  (** whether the Bot API call made at a given time raises *)
  send_raises : nat -> bool;
  (** what the file system does to the save made at a given time *)
  save_outcome : nat -> save_fault
}.

Inductive exn := TelegramError | OSError.

(** A message handed to the Bot API. *)
Inductive sent :=
| Reply (chat_id : Z) (text : string)                     (* reply_text *)
| Notice (chat_id : key) (username title link : string).  (* send_message *)

Definition LF : string := String (ascii_of_nat 10) EmptyString.

Definition text_of (m : sent) : string :=
  match m with
  | Reply _ text => text
  | Notice _ username title link =>
      ("New movie logged by " ++ username ++ ": " ++ title ++ LF
         ++ "Watch it here: " ++ link)%string
  end.

(** The two files, absent or holding a JSON object with string values,
    which is all that [save_data] writes.  A file that is empty, truncated
    or of another shape, on which [json.load] raises or returns another
    type, is outside this model. *)
Record Disk := {
  users_json : option Json.object;
  last_logged_movies_json : option Json.object
}.

(** ** Program state *)

Record State := {
  subscribed_users : PyDict.dict key string;
  last_logged_movies : PyDict.dict string string;
  disk : Disk;
  outbox : list sent;
  now : nat
}.

Definition with_users (u : PyDict.dict key string) (s : State) : State :=
  {| subscribed_users := u; last_logged_movies := last_logged_movies s;
     disk := disk s; outbox := outbox s; now := now s |}.

Definition with_last (l : PyDict.dict string string) (s : State) : State :=
  {| subscribed_users := subscribed_users s; last_logged_movies := l;
     disk := disk s; outbox := outbox s; now := now s |}.

Definition with_disk (d : Disk) (s : State) : State :=
  {| subscribed_users := subscribed_users s;
     last_logged_movies := last_logged_movies s;
     disk := d; outbox := outbox s; now := now s |}.

Definition with_outbox (o : list sent) (s : State) : State :=
  {| subscribed_users := subscribed_users s;
     last_logged_movies := last_logged_movies s;
     disk := disk s; outbox := o; now := now s |}.

(** One call to a collaborator has been made. *)
Definition elapse (s : State) : State :=
  {| subscribed_users := subscribed_users s;
     last_logged_movies := last_logged_movies s;
     disk := disk s; outbox := outbox s; now := S (now s) |}.

(** ** State and exceptions *)

Inductive outcome (A : Type) :=
| Returned (a : A) (s : State)
| Raised (e : exn) (s : State).
Arguments Returned {A}.
Arguments Raised {A}.

Definition M (A : Type) := State -> outcome A.

Definition ret {A} (a : A) : M A := fun s => Returned a s.

Definition bind {A B} (m : M A) (f : A -> M B) : M B :=
  fun s => match m s with
           | Returned a s' => f a s'
           | Raised e s' => Raised e s'
           end.

Notation "x <- m ;; k" := (bind m (fun x => k))
  (at level 61, m at next level, right associativity).
Notation "m ;;; k" := (bind m (fun _ => k))
  (at level 61, right associativity).

Definition state_of {A} (o : outcome A) : State :=
  match o with
  | Returned _ s => s
  | Raised _ s => s
  end.

Definition returned {A} (o : outcome A) : bool :=
  match o with
  | Returned _ _ => true
  | Raised _ _ => false
  end.

Definition gets {A} (f : State -> A) : M A := fun s => Returned (f s) s.
Definition modify (f : State -> State) : M unit := fun s => Returned tt (f s).

(** [for k, v in d.items(): body(k, v)] *)
Fixpoint for_items {K V} (body : K -> V -> M unit) (items : list (K * V)) : M unit :=
  match items with
  | [] => ret tt
  | (k, v) :: rest => body k v ;;; for_items body rest
  end.

(** [xs[:count]] for a Python [int] [count]: a negative bound counts from
    the end. *)
Definition slice_to {A} (count : Z) (xs : list A) : list A :=
  if (0 <=? count)%Z then firstn (Z.to_nat count) xs
  else firstn (List.length xs - Z.to_nat (- count)) xs.

(** ** The program *)

Section Program.
Variable env : Env.

(** [feedparser.parse(rss_url)] *)
Definition feedparser_parse (rss_url : string) : M (list entry) :=
  fun s => Returned (feed env (now s) rss_url) (elapse s).

(** A call to the Bot API: the message is delivered, or the call raises. *)
Definition bot_send (m : sent) : M unit :=
  fun s =>
    if send_raises env (now s) then Raised TelegramError (elapse s)
    else Returned tt (elapse (with_outbox (outbox s ++ [m]) s)).

Definition reply_text (chat_id : Z) (text : string) : M unit :=
  bot_send (Reply chat_id text).

Definition load_data : M unit :=
  fun s =>
    let s1 :=
      match users_json (disk s) with
      | Some o =>
          with_users (map (fun kv => (KStr (fst kv), snd kv)) (Json.load o)) s
      | None => s
      end in
    let s2 :=
      match last_logged_movies_json (disk s1) with
      | Some o => with_last (Json.load o) s1
      | None => s1
      end in
    Returned tt s2.

Definition save_data : M unit :=
  fun s =>
    let users := Json.dump Json.key_name (subscribed_users s) in
    let last := Json.dump (fun k : string => k) (last_logged_movies s) in
    match save_outcome env (now s) with
    | UsersOpenFails => Raised OSError (elapse s)
    | LastOpenFails =>
        Raised OSError
          (elapse (with_disk
                     {| users_json := Some users;
                        last_logged_movies_json :=
                          last_logged_movies_json (disk s) |} s))
    | WriteOk =>
        Returned tt
          (elapse (with_disk
                     {| users_json := Some users;
                        last_logged_movies_json := Some last |} s))
    end.

(** The list that [get_latest_movies] builds from the entries of a feed. *)
Definition movies_of (entries : list entry) (count : Z) : list (string * string) :=
  match entries with
  | [] => []
  | _ :: _ => map (fun e => (title e, link e)) (slice_to count entries)
  end.

Definition get_latest_movies (rss_url : string) (count : Z)
  : M (list (string * string)) :=
  entries <- feedparser_parse rss_url ;;
  ret (movies_of entries count).

Definition construct_rss_url (username : string) : string :=
  ("https://letterboxd.com/" ++ username ++ "/rss/")%string.

Definition subscribe (chat_id : Z) (args : list string) : M unit :=
  match args with
  | username :: _ =>
      modify (fun s => with_users
                (PyDict.set (KInt chat_id) username (subscribed_users s)) s) ;;;
      save_data ;;;
      reply_text chat_id ("Subscribed to updates for " ++ username ++ "!")%string
  | [] => reply_text chat_id "Please provide your Letterboxd username."
  end.

Definition unsubscribe (chat_id : Z) : M unit :=
  users <- gets subscribed_users ;;
  if PyDict.mem (KInt chat_id) users then
    modify (with_users (PyDict.del (KInt chat_id) users)) ;;;
    save_data ;;;
    reply_text chat_id "You have been unsubscribed from notifications."
  else reply_text chat_id "You are not subscribed.".

Definition list_subscriptions (chat_id : Z) : M unit :=
  users <- gets subscribed_users ;;
  match PyDict.get (KInt chat_id) users with
  | Some username =>
      reply_text chat_id ("You are subscribed to updates for: " ++ username)%string
  | None => reply_text chat_id "You are not subscribed to any usernames."
  end.

(** [last_logged_movies.get(username) != title] *)
Definition differs (marker : option string) (title : string) : bool :=
  match marker with
  | Some t => negb (String.eqb t title)
  | None => true
  end.

(** The body of the loop of [check_for_new_movies]. *)
Definition check_pair (chat_id : key) (username : string) : M unit :=
  movies <- get_latest_movies (construct_rss_url username) 1 ;;
  match movies with
  | (title, link) :: _ =>
      last <- gets last_logged_movies ;;
      if differs (PyDict.get username last) title then
        bot_send (Notice chat_id username title link) ;;;
        modify (fun s => with_last
                  (PyDict.set username title (last_logged_movies s)) s) ;;;
        save_data
      else ret tt
  | [] => ret tt
  end.

(** The loop runs over [subscribed_users.items()]; its body never assigns
    to [subscribed_users], so the items are those at the start. *)
Definition check_for_new_movies : M unit :=
  users <- gets subscribed_users ;;
  for_items check_pair users.

End Program.

(** The state of a process that has just started: both globals are [{}]. *)
Definition boot (d : Disk) : State :=
  {| subscribed_users := []; last_logged_movies := [];
     disk := d; outbox := []; now := 0 |}.

(** ** Vocabulary of the statements *)

(** The value a call returned, if it returned. *)
Definition value_of {A} (o : outcome A) : option A :=
  match o with
  | Returned a _ => Some a
  | Raised _ _ => None
  end.

(** Notifications about a watched username among delivered messages. *)
Definition is_notice_about (username : string) (m : sent) : bool :=
  match m with
  | Notice _ u _ _ => String.eqb u username
  | Reply _ _ => false
  end.

Definition notices_about (username : string) (ms : list sent) : nat :=
  List.length (filter (is_notice_about username) ms).

(** Notifications delivered to a chat among delivered messages. *)
Definition is_notice_to (chat_id : key) (m : sent) : bool :=
  match m with
  | Notice c _ _ _ => key_eqb c chat_id
  | Reply _ _ => false
  end.

Definition notices_to (chat_id : key) (ms : list sent) : list sent :=
  filter (is_notice_to chat_id) ms.

(** A run of assignments [d[k] = v]. *)
Definition assign_all {K V} `{Hashable K} (ups : list (K * V))
  (d : PyDict.dict K V) : PyDict.dict K V :=
  fold_left (fun d kv => PyDict.set (fst kv) (snd kv) d) ups d.

(** The items of the registry that watch [username], in iteration order. *)
Definition watching (username : string) (users : PyDict.dict key string)
  : list (key * string) :=
  filter (fun kv => String.eqb (snd kv) username) users.

(** The state in which a pair whose item [e] is new reaches [save_data]: the
    feed has been read, the notification delivered and the marker
    assigned. *)
Definition announced (chat_id : key) (username : string) (e : entry) (s : State)
  : State :=
  with_last (PyDict.set username (title e) (last_logged_movies s))
    (elapse
       (with_outbox (outbox s ++ [Notice chat_id username (title e) (link e)])
          (elapse s))).

(** The notification, the marker and the save of a pair whose item is new,
    after the feed has been read from state [s]. *)
Definition announce (env : Env) (chat_id : key) (username : string) (e : entry)
  (s : State) : outcome unit :=
  if send_raises env (S (now s)) then Raised TelegramError (elapse (elapse s))
  else save_data env (announced chat_id username e s).

(** From time [t0] on, the feed of [username] has [e] as its latest entry. *)
Definition latest_is (env : Env) (t0 : nat) (username : string) (e : entry)
  : Prop :=
  forall t, t0 <= t ->
    exists es, feed env t (construct_rss_url username) = e :: es.

(** Both registries are dictionaries: no key occurs twice. *)
Definition registries_wf (s : State) : Prop :=
  PyDict.wf (subscribed_users s) /\ PyDict.wf (last_logged_movies s).

(** No file has been written yet. *)
Definition no_files : Disk :=
  {| users_json := None; last_logged_movies_json := None |}.

(** Collaborators that never fail, over a feed that does not change. *)
Definition steady (f : string -> list entry) : Env :=
  {| feed := fun _ url => f url;
     send_raises := fun _ => false;
     save_outcome := fun _ => WriteOk |}.

(** A state with the given registries, nothing on disk and nothing sent. *)
Definition fresh (users : PyDict.dict key string)
  (last : PyDict.dict string string) : State :=
  with_last last (with_users users (boot no_files)).

(** ** The handlers that only read *)

Section Readers.
Variable env : Env.

(** The handler of [/start]. *)
Definition start (chat_id : Z) : M unit :=
  reply_text env chat_id
    "Send me your Letterboxd username using the /rss command!".

(** One movie of the answer of [/rss]. *)
Definition movie_line (m : string * string) : string :=
  (fst m ++ LF ++ "Watch it here: " ++ snd m)%string.

(** The handler of [/rss]: the last five movies of a username. *)
Definition fetch_movie (chat_id : Z) (args : list string) : M unit :=
  match args with
  | username :: _ =>
      movies <- get_latest_movies env (construct_rss_url username) 5 ;;
      match movies with
      | _ :: _ =>
          reply_text env chat_id
            (String.concat (LF ++ LF)%string (map movie_line movies))
      | [] =>
          reply_text env chat_id "No recent movies logged or invalid username."
      end
  | [] => reply_text env chat_id "Please provide a Letterboxd username."
  end.

(** A result of an inline query. *)
Record article := {
  article_id : string;
  article_title : string;
  input_message_content : string
}.

(** [update.inline_query.answer(results)], a call to the Bot API; the value
    is the list handed over. *)
Definition answer (results : list article) : M (list article) :=
  fun s =>
    if send_raises env (now s) then Raised TelegramError (elapse s)
    else Returned results (elapse s).

(** The inline query handler; [uuid] is the text of the [uuid4()] drawn for
    the result.  The value is what has been answered: nothing when the query
    is empty or the feed has no entries. *)
Definition inline_query (uuid : string) (query : string) : M (list article) :=
  if String.eqb query "" then ret []
  else
    movies <- get_latest_movies env (construct_rss_url query) 1 ;;
    match movies with
    | (title, link) :: _ =>
        answer
          [ {| article_id := uuid;
               article_title := title;
               input_message_content :=
                 (query ++ " just watched: " ++ title ++ LF
                    ++ "Watch it here: " ++ link)%string |} ]
    | [] => ret []
    end.

End Readers.

(** The state that [main] builds before the handlers run: the globals of a
    new process, then [load_data]. *)
Definition startup (d : Disk) : State := state_of (load_data (boot d)).

(** ** More vocabulary *)

(** [xs] is [ys] with some elements left out. *)
Inductive subseq {A : Type} : list A -> list A -> Prop :=
| subseq_nil : subseq [] []
| subseq_skip (y : A) (xs ys : list A) : subseq xs ys -> subseq xs (y :: ys)
| subseq_keep (x : A) (xs ys : list A) : subseq xs ys -> subseq (x :: xs) (x :: ys).

(** The (destination, username) pair a notification is for. *)
Definition notice_pair (m : sent) : list (key * string) :=
  match m with
  | Notice c u _ _ => [(c, u)]
  | Reply _ _ => []
  end.

Definition is_notice (m : sent) : bool :=
  match m with
  | Notice _ _ _ _ => true
  | Reply _ _ => false
  end.

(** The state [n] collaborator calls later, nothing else changed. *)
Definition later (n : nat) (s : State) : State :=
  {| subscribed_users := subscribed_users s;
     last_logged_movies := last_logged_movies s;
     disk := disk s; outbox := outbox s; now := n + now s |}.

(** The two files hold exactly the registries in memory. *)
Definition synced (s : State) : Prop :=
  disk s
  = {| users_json := Some (Json.dump Json.key_name (subscribed_users s));
       last_logged_movies_json :=
         Some (Json.dump (fun k : string => k) (last_logged_movies s)) |}.

(** Every key of the registry is a [str], as after a reload. *)
Definition str_keyed (users : PyDict.dict key string) : bool :=
  forallb (fun kv => match fst kv with KStr _ => true | KInt _ => false end)
    users.

(** Every marker that the feeds can be compared with already holds the title
    of the latest entry: from time [t0] on, a watched username whose feed
    has entries has the title of the first one as its marker. *)
Definition up_to_date (env : Env) (t0 : nat) (users : PyDict.dict key string)
  (last : PyDict.dict string string) : Prop :=
  forall d u, In (d, u) users ->
    forall t e es, t0 <= t ->
      feed env t (construct_rss_url u) = e :: es ->
      PyDict.get u last = Some (title e).

(** From time [t0] on, every watched username has the feed it has at
    [t0]. *)
Definition feeds_unchanged (env : Env) (t0 : nat)
  (users : PyDict.dict key string) : Prop :=
  forall d u, In (d, u) users ->
    forall t, t0 <= t ->
      feed env t (construct_rss_url u) = feed env t0 (construct_rss_url u).

(** * Properties *)

(** ** Keys *)

Lemma key_eqb_spec (a b : key) : reflect (a = b) (key_eqb a b).
Proof.
  destruct a as [m|s], b as [n|t]; simpl; try (constructor; discriminate).
  - destruct (Z.eqb_spec m n); constructor; congruence.
  - destruct (String.eqb_spec s t); constructor; congruence.
Qed.

#[export] Instance string_hashable_laws : HashableLaws string.
Proof. constructor. exact String.eqb_spec. Qed.

#[export] Instance key_hashable_laws : HashableLaws key.
Proof. constructor. exact key_eqb_spec. Qed.

(** ** Dictionaries *)

Section DictFacts.
Context {K V : Type} `{HashableLaws K}.
Implicit Types (k : K) (v : V) (d : PyDict.dict K V).

Lemma keq_refl k : keq k k = true.
Proof. destruct (keq_spec k k); congruence. Qed.

Lemma keq_neq k k' : k <> k' -> keq k k' = false.
Proof. intros Hne. destruct (keq_spec k k'); congruence. Qed.

Lemma get_set_same k v d : PyDict.get k (PyDict.set k v d) = Some v.
Proof.
  induction d as [|[k' v'] d IH]; simpl.
  - now rewrite keq_refl.
  - destruct (keq_spec k k') as [->|Hne]; simpl.
    + now rewrite keq_refl.
    + now rewrite (keq_neq _ _ Hne).
Qed.

Lemma get_set_other k k' v d :
  k <> k' -> PyDict.get k' (PyDict.set k v d) = PyDict.get k' d.
Proof.
  intros Hne. induction d as [|[k0 v0] d IH]; simpl.
  - rewrite keq_neq; congruence.
  - destruct (keq_spec k k0) as [->|Hne0]; simpl.
    + rewrite !keq_neq; congruence.
    + now rewrite IH.
Qed.

Lemma set_set_same k v d :
  PyDict.set k v (PyDict.set k v d) = PyDict.set k v d.
Proof.
  induction d as [|[k' v'] d IH]; simpl.
  - now rewrite keq_refl.
  - destruct (keq_spec k k') as [->|Hne]; simpl.
    + now rewrite keq_refl.
    + now rewrite (keq_neq _ _ Hne), IH.
Qed.

Lemma mem_false_notin k d : PyDict.mem k d = false -> ~ In k (PyDict.keys d).
Proof.
  unfold PyDict.mem. induction d as [|[k' v'] d IH]; simpl; [tauto|].
  destruct (keq_spec k k') as [->|Hne]; [discriminate|].
  intros Hm [Heq|Hin]; [congruence | now apply IH].
Qed.

Lemma notin_get_none k d : ~ In k (PyDict.keys d) -> PyDict.get k d = None.
Proof.
  induction d as [|[k' v'] d IH]; simpl; [reflexivity|].
  intros Hn. destruct (keq_spec k k') as [->|Hne]; [tauto|].
  apply IH. tauto.
Qed.

(** Assignment keeps every key and adds at most the assigned one, at the
    end. *)
Lemma keys_set k v d :
  PyDict.keys (PyDict.set k v d)
  = if PyDict.mem k d then PyDict.keys d else PyDict.keys d ++ [k].
Proof.
  unfold PyDict.mem. induction d as [|[k' v'] d IH]; simpl; [reflexivity|].
  destruct (keq_spec k k') as [->|Hne]; simpl; [reflexivity|].
  rewrite IH. now destruct (PyDict.get k d).
Qed.

Lemma keys_set_incl k v d :
  incl (PyDict.keys d) (PyDict.keys (PyDict.set k v d)).
Proof.
  rewrite keys_set. destruct (PyDict.mem k d).
  - apply incl_refl.
  - apply incl_appl, incl_refl.
Qed.

Lemma wf_set k v d : PyDict.wf d -> PyDict.wf (PyDict.set k v d).
Proof.
  unfold PyDict.wf. intros Hwf. rewrite keys_set.
  destruct (PyDict.mem k d) eqn:Hm; [assumption|].
  apply NoDup_app; [assumption | repeat constructor; simpl; tauto |].
  intros x Hx [<-|[]]. now apply (mem_false_notin _ _ Hm).
Qed.

Lemma keys_del_incl k d : incl (PyDict.keys (PyDict.del k d)) (PyDict.keys d).
Proof.
  induction d as [|[k' v'] d IH]; simpl; [apply incl_refl|].
  destruct (keq k k'); simpl.
  - now apply incl_tl.
  - apply incl_cons; [now left | now apply incl_tl].
Qed.

Lemma wf_del k d : PyDict.wf d -> PyDict.wf (PyDict.del k d).
Proof.
  unfold PyDict.wf. induction d as [|[k' v'] d IH]; simpl; [trivial|].
  intros Hwf. inversion Hwf as [|? ? Hnin Hnd]; subst.
  destruct (keq k k'); simpl; [now apply IH|].
  constructor; [|now apply IH].
  intros Hin. apply Hnin. now apply (keys_del_incl k d).
Qed.

Lemma get_del_same k d : PyDict.get k (PyDict.del k d) = None.
Proof.
  induction d as [|[k' v'] d IH]; simpl; [reflexivity|].
  destruct (keq k k') eqn:E; simpl; [assumption|].
  now rewrite E.
Qed.

Lemma del_absent k d : PyDict.mem k d = false -> PyDict.del k d = d.
Proof.
  unfold PyDict.mem. induction d as [|[k' v'] d IH]; simpl; [reflexivity|].
  destruct (keq k k'); [discriminate|].
  intros Hm. f_equal. now apply IH.
Qed.

Lemma get_del_other k k' d :
  k <> k' -> PyDict.get k' (PyDict.del k d) = PyDict.get k' d.
Proof.
  intros Hne. induction d as [|[k0 v0] d IH]; simpl; [reflexivity|].
  destruct (keq_spec k k0) as [->|Hne0]; simpl.
  - now rewrite keq_neq by congruence.
  - now rewrite IH.
Qed.

Lemma entries_for_notin k d :
  ~ In k (PyDict.keys d) -> PyDict.entries_for k d = 0.
Proof.
  unfold PyDict.entries_for.
  induction d as [|[k' v'] d IH]; simpl; [reflexivity|].
  intros Hn. destruct (keq_spec k k') as [->|Hne]; [tauto|].
  apply IH. tauto.
Qed.

(** After an assignment a well-formed dictionary holds exactly one item
    under the assigned key. *)
Lemma entries_for_set k v d :
  PyDict.wf d -> PyDict.entries_for k (PyDict.set k v d) = 1.
Proof.
  unfold PyDict.wf, PyDict.entries_for.
  induction d as [|[k' v'] d IH]; simpl; intros Hwf.
  - now rewrite keq_refl.
  - inversion Hwf as [|? ? Hnin Hnd]; subst.
    destruct (keq_spec k k') as [->|Hne]; simpl.
    + rewrite keq_refl. simpl. f_equal. now apply entries_for_notin.
    + rewrite (keq_neq _ _ Hne). now apply IH.
Qed.

(** Assignment to a key that is not there appends the item. *)
Lemma set_absent k v d :
  ~ In k (PyDict.keys d) -> PyDict.set k v d = d ++ [(k, v)].
Proof.
  induction d as [|[k' v'] d IH]; simpl; intros Hnin; [reflexivity|].
  rewrite keq_neq by (intros ->; tauto).
  f_equal. apply IH. tauto.
Qed.

Lemma fold_set_from d (ps : list (K * V)) :
  NoDup (PyDict.keys d ++ map fst ps) ->
  fold_left (fun d kv => PyDict.set (fst kv) (snd kv) d) ps d = d ++ ps.
Proof.
  revert d. induction ps as [|[k v] ps IH]; intros d Hnd; simpl.
  - now rewrite app_nil_r.
  - assert (Hnin : ~ In k (PyDict.keys d)).
    { simpl in Hnd. apply NoDup_remove_2 in Hnd.
      intros Hin. apply Hnd. apply in_or_app. now left. }
    rewrite (set_absent k v d Hnin), IH.
    + now rewrite <- app_assoc.
    + unfold PyDict.keys in *. rewrite map_app, <- app_assoc. exact Hnd.
Qed.

(** Building a dictionary from the items of a well-formed one gives it
    back. *)
Lemma of_pairs_items d : PyDict.wf d -> PyDict.of_pairs d = d.
Proof.
  intros Hwf. unfold PyDict.of_pairs. now rewrite fold_set_from.
Qed.

End DictFacts.

(** ** What the collaborator calls leave alone *)

Section Frames.
Variable env : Env.

Lemma bot_send_frame m s :
  let s' := state_of (bot_send env m s) in
  subscribed_users s' = subscribed_users s
  /\ last_logged_movies s' = last_logged_movies s
  /\ disk s' = disk s
  /\ now s' = S (now s).
Proof. unfold bot_send. now destruct (send_raises env (now s)). Qed.

Lemma bot_send_accepted m s :
  send_raises env (now s) = false ->
  bot_send env m s = Returned tt (elapse (with_outbox (outbox s ++ [m]) s)).
Proof. unfold bot_send. now intros ->. Qed.

Lemma bot_send_rejected m s :
  send_raises env (now s) = true ->
  bot_send env m s = Raised TelegramError (elapse s).
Proof. unfold bot_send. now intros ->. Qed.

Lemma save_data_frame s :
  let s' := state_of (save_data env s) in
  subscribed_users s' = subscribed_users s
  /\ last_logged_movies s' = last_logged_movies s
  /\ outbox s' = outbox s
  /\ now s' = S (now s).
Proof. unfold save_data. now destruct (save_outcome env (now s)). Qed.

Lemma save_data_written s :
  save_outcome env (now s) = WriteOk ->
  save_data env s
  = Returned tt
      (elapse (with_disk
                 {| users_json :=
                      Some (Json.dump Json.key_name (subscribed_users s));
                    last_logged_movies_json :=
                      Some (Json.dump (fun k => k) (last_logged_movies s)) |}
                 s)).
Proof. unfold save_data. now intros ->. Qed.

End Frames.

(** ** The command handlers *)

Section Handlers.
Variable env : Env.

(** Whatever the collaborators do, [subscribe] with an argument leaves
    the assignment in [subscribed_users] and does not touch
    [last_logged_movies]. *)
Lemma subscribe_registries chat_id username rest s :
  let s' := state_of (subscribe env chat_id (username :: rest) s) in
  subscribed_users s'
  = PyDict.set (KInt chat_id) username (subscribed_users s)
  /\ last_logged_movies s' = last_logged_movies s.
Proof.
  unfold subscribe, bind, modify, reply_text, save_data, bot_send. simpl.
  destruct (save_outcome env (now s)); simpl; auto.
  destruct (send_raises env (S (now s))); simpl; auto.
Qed.

Lemma unsubscribe_absent chat_id s :
  PyDict.get (KInt chat_id) (subscribed_users s) = None ->
  unsubscribe env chat_id s = reply_text env chat_id "You are not subscribed." s.
Proof.
  intros Hget. unfold unsubscribe, bind, gets, PyDict.mem. now rewrite Hget.
Qed.

Lemma unsubscribe_users chat_id s :
  subscribed_users (state_of (unsubscribe env chat_id s))
  = PyDict.del (KInt chat_id) (subscribed_users s).
Proof.
  unfold unsubscribe, bind, gets, modify, reply_text.
  destruct (PyDict.mem (KInt chat_id) (subscribed_users s)) eqn:Hm.
  - unfold save_data, bot_send. simpl.
    destruct (save_outcome env (now s)); simpl; auto.
    destruct (send_raises env (S (now s))); simpl; auto.
  - pose proof (bot_send_frame env (Reply chat_id "You are not subscribed.") s)
      as Hframe.
    cbv zeta in Hframe. destruct Hframe as (-> & _).
    symmetry. now apply del_absent.
Qed.

Lemma list_subscriptions_absent chat_id s :
  PyDict.get (KInt chat_id) (subscribed_users s) = None ->
  list_subscriptions env chat_id s
  = reply_text env chat_id "You are not subscribed to any usernames." s.
Proof.
  intros Hget. unfold list_subscriptions, bind, gets. now rewrite Hget.
Qed.

End Handlers.

(** C7. For every destination [d] and identity, [subscribe] assigns the
    identity to [d] in [subscribed_users] (an upsert: the item of [d] is
    replaced in place or appended, nothing else moves); a second call with
    the same identity leaves the registry as the first call left it, with
    the identity under [d] and exactly one item for [d].  This holds
    whatever the file system and the transport do during the calls. *)
Theorem subscribe_upsert_idempotent
  (env : Env) (s : State) (d : Z) (identity : string) (rest rest' : list string)
  (Hwf : PyDict.wf (subscribed_users s)) :
  let s1 := state_of (subscribe env d (identity :: rest) s) in
  let s2 := state_of (subscribe env d (identity :: rest') s1) in
  subscribed_users s1 = PyDict.set (KInt d) identity (subscribed_users s)
  /\ PyDict.get (KInt d) (subscribed_users s1) = Some identity
  /\ subscribed_users s2 = subscribed_users s1
  /\ PyDict.get (KInt d) (subscribed_users s2) = Some identity
  /\ PyDict.entries_for (KInt d) (subscribed_users s2) = 1
  /\ last_logged_movies s2 = last_logged_movies s.
Proof.
  intros s1 s2.
  pose proof (subscribe_registries env d identity rest s) as H1.
  pose proof (subscribe_registries env d identity rest' s1) as H2.
  cbv zeta in H1, H2. fold s1 in H1. fold s2 in H2.
  destruct H1 as [U1 L1], H2 as [U2 L2].
  assert (U21 : subscribed_users s2 = subscribed_users s1).
  { rewrite U2, U1. apply set_set_same. }
  repeat split.
  - exact U1.
  - rewrite U1. apply get_set_same.
  - exact U21.
  - rewrite U21, U1. apply get_set_same.
  - rewrite U21, U1. now apply entries_for_set.
  - congruence.
Qed.

Lemma subscribe_upsert_idempotent_witness :
  PyDict.wf (subscribed_users (fresh [(KInt 7, "bob")] []))
  /\ PyDict.entries_for (KInt 42)
       (subscribed_users
          (state_of
             (subscribe (steady (fun _ => [])) 42 ["alice"]
                (state_of
                   (subscribe (steady (fun _ => [])) 42 ["alice"]
                      (fresh [(KInt 7, "bob")] []))))))
     = 1.
Proof.
  assert (Hwf : PyDict.wf (subscribed_users (fresh [(KInt 7, "bob")] []))).
  { repeat constructor. simpl. tauto. }
  split; [exact Hwf|].
  exact (proj1 (proj2 (proj2 (proj2 (proj2
    (subscribe_upsert_idempotent (steady (fun _ => [])) _ 42 "alice" [] []
       Hwf)))))).
Defined.

(** C8. After [unsubscribe d] the registry holds no item for [d]; then
    [list_subscriptions d] answers with the not-subscribed text, and a second
    [unsubscribe d] answers "You are not subscribed." and leaves both
    registries and the files as they are.  Neither call raises anything of
    its own: the only exception is the one of a transport that rejects the
    answer. *)
Theorem unsubscribe_then_list (env : Env) (s : State) (d : Z) :
  let s1 := state_of (unsubscribe env d s) in
  let told text :=
    if send_raises env (now s1) then Raised TelegramError (elapse s1)
    else Returned tt (elapse (with_outbox (outbox s1 ++ [Reply d text]) s1)) in
  subscribed_users s1 = PyDict.del (KInt d) (subscribed_users s)
  /\ PyDict.get (KInt d) (subscribed_users s1) = None
  /\ list_subscriptions env d s1 = told "You are not subscribed to any usernames."
  /\ unsubscribe env d s1 = told "You are not subscribed."
  /\ subscribed_users (state_of (unsubscribe env d s1)) = subscribed_users s1
  /\ last_logged_movies (state_of (unsubscribe env d s1)) = last_logged_movies s1
  /\ disk (state_of (unsubscribe env d s1)) = disk s1.
Proof.
  intros s1 told.
  assert (Hdel : subscribed_users s1 = PyDict.del (KInt d) (subscribed_users s))
    by apply unsubscribe_users.
  assert (Hnone : PyDict.get (KInt d) (subscribed_users s1) = None).
  { rewrite Hdel. apply get_del_same. }
  assert (Hagain : unsubscribe env d s1 = told "You are not subscribed.").
  { rewrite (unsubscribe_absent env d s1 Hnone). reflexivity. }
  repeat split; try assumption.
  - rewrite (list_subscriptions_absent env d s1 Hnone). reflexivity.
  - rewrite Hagain. unfold told. now destruct (send_raises env (now s1)).
  - rewrite Hagain. unfold told. now destruct (send_raises env (now s1)).
  - rewrite Hagain. unfold told. now destruct (send_raises env (now s1)).
Qed.

(** C9. For every feed result and every count, a count being a number of
    movies asked for (the callers pass 1 and 5), [get_latest_movies] returns
    the (title, link) pairs of the first min(count, number of entries)
    entries of the feed, in feed order: at most count of them, and none
    when the feed has no entries, which is also how a failed fetch shows. *)
Theorem get_latest_movies_prefix
  (env : Env) (url : string) (count : Z) (s : State) (Hcount : (0 <= count)%Z) :
  let entries := feed env (now s) url in
  let movies :=
    map (fun e => (title e, link e))
      (firstn (Nat.min (Z.to_nat count) (List.length entries)) entries) in
  get_latest_movies env url count s = Returned movies (elapse s)
  /\ (Z.of_nat (List.length movies) <= count)%Z
  /\ (entries = [] -> movies = []).
Proof.
  intros entries movies.
  assert (Hfirst : firstn (Nat.min (Z.to_nat count) (List.length entries)) entries
                   = firstn (Z.to_nat count) entries).
  { destruct (Nat.le_ge_cases (Z.to_nat count) (List.length entries)) as [Hle|Hge].
    - now rewrite Nat.min_l.
    - rewrite Nat.min_r by assumption.
      now rewrite firstn_all, firstn_all2. }
  repeat split.
  - unfold get_latest_movies, bind, feedparser_parse, ret, movies_of, slice_to.
    fold entries. subst movies. rewrite Hfirst.
    destruct (Z.leb_spec 0 count); [|lia].
    clear Hfirst. clearbody entries.
    destruct entries; [now rewrite firstn_nil | reflexivity].
  - subst movies. rewrite length_map, length_firstn. lia.
  - intros Hnil. subst movies. now rewrite Hnil, firstn_nil.
Qed.

Lemma get_latest_movies_prefix_witness :
  (0 <= 1)%Z
  /\ get_latest_movies
       (steady (fun _ => [ {| title := "Dune Part Two"; link := "http://x/1" |};
                           {| title := "Oppenheimer"; link := "http://x/2" |} ]))
       "https://letterboxd.com/alice/rss/" 1 (fresh [] [])
     = Returned [("Dune Part Two", "http://x/1")] (elapse (fresh [] [])).
Proof.
  split; [lia|].
  exact (proj1
    (get_latest_movies_prefix
       (steady (fun _ => [ {| title := "Dune Part Two"; link := "http://x/1" |};
                           {| title := "Oppenheimer"; link := "http://x/2" |} ]))
       "https://letterboxd.com/alice/rss/" 1 (fresh [] [])
       ltac:(lia))).
Defined.

(** ** The polling pass *)

Section Tick.
Variable env : Env.

Lemma for_items_app {K V} (body : K -> V -> M unit) (pre rest : list (K * V)) s :
  for_items body (pre ++ rest) s
  = match for_items body pre s with
    | Returned _ s1 => for_items body rest s1
    | Raised e s1 => Raised e s1
    end.
Proof.
  revert s. induction pre as [|[k v] pre IH]; intros s; simpl; [reflexivity|].
  unfold bind. destruct (body k v s) as [[] s1|e s1]; [apply IH | reflexivity].
Qed.

(** One turn of the loop, case by case. *)
Lemma check_pair_run chat_id username s :
  check_pair env chat_id username s
  = match feed env (now s) (construct_rss_url username) with
    | [] => Returned tt (elapse s)
    | e :: _ =>
        if differs (PyDict.get username (last_logged_movies s)) (title e)
        then announce env chat_id username e s
        else Returned tt (elapse s)
    end.
Proof.
  unfold check_pair, get_latest_movies, feedparser_parse, bind, ret, gets,
    modify, movies_of, announce, announced, bot_send. simpl.
  destruct (feed env (now s) (construct_rss_url username)) as [|e es];
    [reflexivity|].
  simpl.
  destruct (differs (PyDict.get username (last_logged_movies s)) (title e));
    [|reflexivity].
  change (now (elapse s)) with (S (now s)).
  now destruct (send_raises env (S (now s))).
Qed.

(** What a turn can do to the state: [subscribed_users] is not touched,
    [last_logged_movies] gets at most one assignment, under the watched
    username. *)
Lemma check_pair_effect chat_id username s :
  subscribed_users (state_of (check_pair env chat_id username s))
  = subscribed_users s
  /\ (exists ups,
        last_logged_movies (state_of (check_pair env chat_id username s))
        = assign_all ups (last_logged_movies s))
  /\ now s <= now (state_of (check_pair env chat_id username s)).
Proof.
  rewrite check_pair_run.
  destruct (feed env (now s) (construct_rss_url username)) as [|e es].
  { simpl. split; [reflexivity|]. split; [now exists []|lia]. }
  destruct (differs (PyDict.get username (last_logged_movies s)) (title e)).
  2:{ simpl. split; [reflexivity|]. split; [now exists []|lia]. }
  unfold announce, announced. destruct (send_raises env (S (now s))).
  { simpl. split; [reflexivity|]. split; [now exists []|lia]. }
  match goal with |- context [save_data env ?s0] =>
    pose proof (save_data_frame env s0) as Hsave; cbv zeta in Hsave;
    destruct Hsave as (-> & -> & _ & ->)
  end.
  simpl. split; [reflexivity|].
  split; [now exists [(username, title e)] | lia].
Qed.

Lemma assign_all_app {K V} `{Hashable K} (a b : list (K * V)) d :
  assign_all (a ++ b) d = assign_all b (assign_all a d).
Proof. unfold assign_all. apply fold_left_app. Qed.

Lemma assign_all_keys {K V} `{HashableLaws K} (ups : list (K * V)) d :
  incl (PyDict.keys d) (PyDict.keys (assign_all ups d)).
Proof.
  revert d. induction ups as [|[k v] ups IH]; intros d; simpl.
  - apply incl_refl.
  - eapply incl_tran; [apply (keys_set_incl k v)|apply IH].
Qed.

Lemma for_items_effect items s :
  subscribed_users (state_of (for_items (check_pair env) items s))
  = subscribed_users s
  /\ (exists ups,
        last_logged_movies (state_of (for_items (check_pair env) items s))
        = assign_all ups (last_logged_movies s))
  /\ now s <= now (state_of (for_items (check_pair env) items s)).
Proof.
  revert s. induction items as [|[k v] items IH]; intros s; simpl.
  - split; [reflexivity|]. split; [now exists []|lia].
  - unfold bind.
    destruct (check_pair_effect k v s) as (Hu & [ups Hl] & Hn).
    destruct (check_pair env k v s) as [[] s1|e s1]; simpl in *.
    + destruct (IH s1) as (Hu' & [ups' Hl'] & Hn').
      split; [congruence|]. split; [|lia].
      exists (ups ++ ups'). now rewrite assign_all_app, <- Hl.
    + split; [assumption|]. split; [now exists ups|assumption].
Qed.

End Tick.

(** C10. Whatever the feed, the transport and the file system answer, and
    whether the pass returns or raises, one run of [check_for_new_movies]
    leaves [subscribed_users] as it was, and [last_logged_movies] is the old
    one after a run of assignments: keys are inserted or overwritten, none is
    deleted. *)
Theorem tick_preserves_registries (env : Env) (s : State) :
  let s' := state_of (check_for_new_movies env s) in
  subscribed_users s' = subscribed_users s
  /\ (exists ups, last_logged_movies s' = assign_all ups (last_logged_movies s))
  /\ incl (PyDict.keys (last_logged_movies s)) (PyDict.keys (last_logged_movies s')).
Proof.
  intros s'. subst s'. unfold check_for_new_movies, bind, gets.
  destruct (for_items_effect env (subscribed_users s) s) as (Hu & [ups Hl] & _).
  split; [assumption|]. split; [now exists ups|].
  rewrite Hl. apply assign_all_keys.
Qed.

Section TickCases.
Variable env : Env.

(** A tick whose loop has come through the pairs [pre] continues with the
    rest of the items from the state reached. *)
Lemma tick_from_reached s pre rest s1 :
  subscribed_users s = pre ++ rest ->
  for_items (check_pair env) pre s = Returned tt s1 ->
  check_for_new_movies env s = for_items (check_pair env) rest s1.
Proof.
  intros Hitems Hreach. unfold check_for_new_movies, bind, gets.
  now rewrite Hitems, for_items_app, Hreach.
Qed.

Lemma fetch_one_empty url s :
  value_of (get_latest_movies env url 1 s) = Some [] ->
  feed env (now s) url = [].
Proof.
  unfold get_latest_movies, feedparser_parse, bind, ret, movies_of. simpl.
  now destruct (feed env (now s) url).
Qed.

End TickCases.

(** C6. When the loop of a tick reaches a pair whose fetch with count 1
    returns no items, the turn for that pair returns without an exception,
    sends nothing and changes neither registry nor the files (only the clock
    of the fetch moves), and the tick goes on with the remaining pairs
    exactly as a loop over those pairs alone would from there. *)
Theorem empty_fetch_skips_pair
  (env : Env) (s s1 : State) (pre rest : list (key * string))
  (d : key) (identity : string)
  (Hitems : subscribed_users s = pre ++ (d, identity) :: rest)
  (Hreach : for_items (check_pair env) pre s = Returned tt s1)
  (Hempty : value_of (get_latest_movies env (construct_rss_url identity) 1 s1)
            = Some []) :
  check_pair env d identity s1 = Returned tt (elapse s1)
  /\ outbox (elapse s1) = outbox s1
  /\ subscribed_users (elapse s1) = subscribed_users s1
  /\ last_logged_movies (elapse s1) = last_logged_movies s1
  /\ disk (elapse s1) = disk s1
  /\ check_for_new_movies env s = for_items (check_pair env) rest (elapse s1).
Proof.
  apply fetch_one_empty in Hempty.
  assert (Hskip : check_pair env d identity s1 = Returned tt (elapse s1)).
  { now rewrite check_pair_run, Hempty. }
  repeat split; try reflexivity; try assumption.
  rewrite (tick_from_reached env s pre _ s1 Hitems Hreach).
  simpl. unfold bind. now rewrite Hskip.
Qed.

(** Two destinations: the feed of the first one's identity has no items, the
    second one's has a new item, and the second destination is notified. *)
Lemma empty_fetch_skips_pair_witness :
  let env := steady (fun url =>
               if String.eqb url (construct_rss_url "yara")
               then [ {| title := "Oppenheimer"; link := "http://x/2" |} ]
               else []) in
  let s := fresh [(KInt 1, "xavier"); (KInt 2, "yara")] [] in
  subscribed_users s = [] ++ (KInt 1, "xavier") :: [(KInt 2, "yara")]
  /\ for_items (check_pair env) [] s = Returned tt s
  /\ value_of (get_latest_movies env (construct_rss_url "xavier") 1 s) = Some []
  /\ outbox (state_of (for_items (check_pair env) [(KInt 2, "yara")] (elapse s)))
     = [Notice (KInt 2) "yara" "Oppenheimer" "http://x/2"]
  /\ last_logged_movies
       (state_of (for_items (check_pair env) [(KInt 2, "yara")] (elapse s)))
     = [("yara", "Oppenheimer")]
  /\ check_for_new_movies env s
     = for_items (check_pair env) [(KInt 2, "yara")] (elapse s).
Proof.
  intros env s.
  refine (conj eq_refl (conj eq_refl (conj eq_refl (conj eq_refl (conj eq_refl _))))).
  exact (proj2 (proj2 (proj2 (proj2 (proj2
    (empty_fetch_skips_pair env s s [] [(KInt 2, "yara")] (KInt 1) "xavier"
       eq_refl eq_refl eq_refl)))))).
Defined.

(** C4, at a concrete input: destinations 1 and 2 watch two identities
    whose feeds both carry a new item, and the transport rejects the first
    notification only.  The tick raises at the first pair; destination 2 is
    not notified and its marker stays absent, although processing its pair
    from there would have notified it. *)
Lemma delivery_failure_stops_tick :
  let env := {| feed := fun _ url =>
                  if String.eqb url (construct_rss_url "xavier")
                  then [ {| title := "Dune Part Two"; link := "http://x/1" |} ]
                  else [ {| title := "Oppenheimer"; link := "http://x/2" |} ];
                send_raises := fun t => Nat.eqb t 1;
                save_outcome := fun _ => WriteOk |} in
  let s := fresh [(KInt 1, "xavier"); (KInt 2, "yara")] [] in
  check_for_new_movies env s = Raised TelegramError (elapse (elapse s))
  /\ notices_to (KInt 2) (outbox (state_of (check_for_new_movies env s))) = []
  /\ PyDict.get "yara" (last_logged_movies (state_of (check_for_new_movies env s)))
     = None
  /\ notices_to (KInt 2)
       (outbox (state_of (for_items (check_pair env) [(KInt 2, "yara")]
                            (elapse (elapse s)))))
     = [Notice (KInt 2) "yara" "Oppenheimer" "http://x/2"].
Proof. intros env s. repeat split. Qed.

(** C4, amended. When the loop of a tick reaches a pair whose item is new
    and the transport rejects its notification, the exception leaves the
    tick: the state is the one reached after the pairs before it, two
    collaborator calls later, so the marker of the failing pair is not
    advanced, nothing is saved for it, and no remaining pair is processed in
    this tick. *)
Theorem delivery_failure_aborts_tick
  (env : Env) (s s1 : State) (pre rest : list (key * string))
  (d : key) (identity : string) (e : entry) (es : list entry)
  (Hitems : subscribed_users s = pre ++ (d, identity) :: rest)
  (Hreach : for_items (check_pair env) pre s = Returned tt s1)
  (Hfeed : feed env (now s1) (construct_rss_url identity) = e :: es)
  (Hnew : differs (PyDict.get identity (last_logged_movies s1)) (title e) = true)
  (Hrejected : send_raises env (S (now s1)) = true) :
  check_for_new_movies env s = Raised TelegramError (elapse (elapse s1))
  /\ outbox (elapse (elapse s1)) = outbox s1
  /\ last_logged_movies (elapse (elapse s1)) = last_logged_movies s1
  /\ disk (elapse (elapse s1)) = disk s1.
Proof.
  repeat split.
  rewrite (tick_from_reached env s pre _ s1 Hitems Hreach).
  simpl. unfold bind.
  now rewrite check_pair_run, Hfeed, Hnew; unfold announce; rewrite Hrejected.
Qed.

Lemma delivery_failure_aborts_tick_witness :
  let env := {| feed := fun _ url =>
                  if String.eqb url (construct_rss_url "xavier")
                  then [ {| title := "Dune Part Two"; link := "http://x/1" |} ]
                  else [ {| title := "Oppenheimer"; link := "http://x/2" |} ];
                send_raises := fun t => Nat.eqb t 1;
                save_outcome := fun _ => WriteOk |} in
  let s := fresh [(KInt 1, "xavier"); (KInt 2, "yara")] [] in
  subscribed_users s = [] ++ (KInt 1, "xavier") :: [(KInt 2, "yara")]
  /\ for_items (check_pair env) [] s = Returned tt s
  /\ feed env (now s) (construct_rss_url "xavier")
     = {| title := "Dune Part Two"; link := "http://x/1" |} :: []
  /\ differs (PyDict.get "xavier" (last_logged_movies s)) "Dune Part Two" = true
  /\ send_raises env (S (now s)) = true
  /\ check_for_new_movies env s = Raised TelegramError (elapse (elapse s)).
Proof.
  intros env s.
  refine (conj eq_refl (conj eq_refl (conj eq_refl (conj eq_refl (conj eq_refl _))))).
  exact (proj1
    (delivery_failure_aborts_tick env s s [] [(KInt 2, "yara")] (KInt 1) "xavier"
       {| title := "Dune Part Two"; link := "http://x/1" |} []
       eq_refl eq_refl eq_refl eq_refl eq_refl)).
Defined.

(** C5, at a concrete input: the file system refuses the save of a
    [subscribe]; the call raises, yet [subscribed_users] holds the new
    subscription, which no file records. *)
Lemma failed_save_keeps_mutation :
  let env := {| feed := fun _ _ => [];
                send_raises := fun _ => false;
                save_outcome := fun _ => UsersOpenFails |} in
  let s := fresh [] [] in
  subscribe env 42 ["alice"] s
  = Raised OSError (elapse (with_users [(KInt 42, "alice")] s))
  /\ subscribed_users (state_of (subscribe env 42 ["alice"] s)) <> subscribed_users s
  /\ disk (state_of (subscribe env 42 ["alice"] s)) = no_files.
Proof.
  intros env s. split; [reflexivity|]. split; [discriminate | reflexivity].
Qed.

(** C5, amended. For each mutating operation, when the save that follows
    the mutation fails, the exception leaves the operation and the mutation
    stays in memory: nothing is rolled back.  [subscribe] and [unsubscribe]
    send no confirmation; a tick has delivered the notification, keeps the
    advanced marker and processes no remaining pair. *)
Theorem failed_save_is_not_rolled_back (env : Env) (s : State) :
  (forall d identity rest,
      save_outcome env (now s) <> WriteOk ->
      exists s',
        subscribe env d (identity :: rest) s = Raised OSError s'
        /\ subscribed_users s' = PyDict.set (KInt d) identity (subscribed_users s)
        /\ last_logged_movies s' = last_logged_movies s
        /\ outbox s' = outbox s)
  /\ (forall d,
      PyDict.mem (KInt d) (subscribed_users s) = true ->
      save_outcome env (now s) <> WriteOk ->
      exists s',
        unsubscribe env d s = Raised OSError s'
        /\ subscribed_users s' = PyDict.del (KInt d) (subscribed_users s)
        /\ last_logged_movies s' = last_logged_movies s
        /\ outbox s' = outbox s)
  /\ (forall d identity e es rest,
      feed env (now s) (construct_rss_url identity) = e :: es ->
      differs (PyDict.get identity (last_logged_movies s)) (title e) = true ->
      send_raises env (S (now s)) = false ->
      save_outcome env (S (S (now s))) <> WriteOk ->
      exists s',
        for_items (check_pair env) ((d, identity) :: rest) s = Raised OSError s'
        /\ subscribed_users s' = subscribed_users s
        /\ last_logged_movies s'
           = PyDict.set identity (title e) (last_logged_movies s)
        /\ outbox s' = outbox s ++ [Notice d identity (title e) (link e)]).
Proof.
  split; [|split].
  - intros d identity rest Hfail.
    unfold subscribe, bind, modify, save_data. simpl.
    destruct (save_outcome env (now s)); [congruence| |]; eexists; split;
      try reflexivity; simpl; auto.
  - intros d Hmem Hfail.
    unfold unsubscribe, bind, gets, modify, save_data. rewrite Hmem. simpl.
    destruct (save_outcome env (now s)); [congruence| |]; eexists; split;
      try reflexivity; simpl; auto.
  - intros d identity e es rest Hfeed Hnew Hsend Hfail.
    simpl. unfold bind.
    rewrite check_pair_run, Hfeed, Hnew. unfold announce. rewrite Hsend.
    unfold save_data, announced. simpl.
    destruct (save_outcome env (S (S (now s)))); [congruence| |]; eexists; split;
      try reflexivity; simpl; auto.
Qed.

Lemma failed_save_is_not_rolled_back_witness :
  let env := {| feed := fun _ _ => [];
                send_raises := fun _ => false;
                save_outcome := fun _ => UsersOpenFails |} in
  let s := fresh [] [] in
  save_outcome env (now s) <> WriteOk
  /\ exists s',
       subscribe env 42 ["alice"] s = Raised OSError s'
       /\ subscribed_users s' = PyDict.set (KInt 42) "alice" (subscribed_users s)
       /\ last_logged_movies s' = last_logged_movies s
       /\ outbox s' = outbox s.
Proof.
  intros env s.
  assert (Hfail : save_outcome env (now s) <> WriteOk) by discriminate.
  exact (conj Hfail
           (proj1 (failed_save_is_not_rolled_back env s) 42%Z "alice" [] Hfail)).
Defined.

(** C1, at a concrete input: destinations 1 and 2 both watch alice, no
    marker is stored for alice, and her feed carries "Movie A".  One tick
    notifies destination 1 and sets the marker; destination 2 receives
    nothing, in this tick or in the next one, because the marker that the
    first pair has just set makes the item look old for the second pair. *)
Theorem second_subscriber_not_notified :
  let env := steady (fun url =>
               if String.eqb url (construct_rss_url "alice")
               then [ {| title := "Movie A"; link := "http://x/a" |} ]
               else []) in
  let s := fresh [(KInt 1, "alice"); (KInt 2, "alice")] [] in
  let s1 := state_of (check_for_new_movies env s) in
  let s2 := state_of (check_for_new_movies env s1) in
  returned (check_for_new_movies env s) = true
  /\ PyDict.get "alice" (last_logged_movies s) = None
  /\ outbox s1 = [Notice (KInt 1) "alice" "Movie A" "http://x/a"]
  /\ notices_to (KInt 2) (outbox s1) = []
  /\ PyDict.get "alice" (last_logged_movies s1) = Some "Movie A"
  /\ notices_to (KInt 2) (outbox s2) = [].
Proof. intros env s s1 s2. repeat split. Qed.

(** C3, at a concrete input: a registry with the chat id 42 as key is
    saved and loaded again, by the running process or by one that has just
    started.  The key comes back as the string "42", so the loaded registry
    differs from the saved one; [unsubscribe 42] then finds no item and
    leaves the subscription in place. *)
Theorem reload_turns_chat_ids_into_strings :
  let env := steady (fun _ => []) in
  let s := fresh [(KInt 42, "alice")] [("alice", "Dune Part Two")] in
  let saved := state_of (save_data env s) in
  let reloaded := state_of (load_data saved) in
  let restarted := state_of (load_data (boot (disk saved))) in
  returned (save_data env s) = true
  /\ subscribed_users reloaded = [(KStr "42", "alice")]
  /\ subscribed_users restarted = [(KStr "42", "alice")]
  /\ subscribed_users reloaded <> subscribed_users s
  /\ last_logged_movies restarted = last_logged_movies s
  /\ PyDict.get (KInt 42) (subscribed_users restarted) = None
  /\ outbox (state_of (unsubscribe env 42 restarted))
     = [Reply 42 "You are not subscribed."]
  /\ subscribed_users (state_of (unsubscribe env 42 restarted))
     = [(KStr "42", "alice")].
Proof.
  intros env s saved reloaded restarted.
  repeat split. discriminate.
Qed.

(** ** Deduplication across ticks *)

Section Dedup.
Variable env : Env.

Lemma differs_same t : differs (Some t) t = false.
Proof. simpl. now rewrite String.eqb_refl. Qed.

Lemma differs_false marker t : differs marker t = false -> marker = Some t.
Proof.
  destruct marker as [t'|]; simpl; [|discriminate].
  destruct (String.eqb_spec t' t); [congruence | discriminate].
Qed.

Lemma filter_snoc {A} (p : A -> bool) (xs : list A) (x : A) :
  filter p (xs ++ [x]) = filter p xs ++ (if p x then [x] else []).
Proof. rewrite filter_app. simpl. now destruct (p x). Qed.

(** A turn that returns either left the outbox and the marker alone, or
    found a new item, delivered its notification and advanced the
    marker. *)
Lemma check_pair_returned chat_id username s s1 :
  check_pair env chat_id username s = Returned tt s1 ->
  now s <= now s1
  /\ ((outbox s1 = outbox s
       /\ last_logged_movies s1 = last_logged_movies s
       /\ (forall e es,
             feed env (now s) (construct_rss_url username) = e :: es ->
             differs (PyDict.get username (last_logged_movies s)) (title e)
             = false))
      \/ (exists e es,
            feed env (now s) (construct_rss_url username) = e :: es
            /\ differs (PyDict.get username (last_logged_movies s)) (title e)
               = true
            /\ outbox s1
               = outbox s ++ [Notice chat_id username (title e) (link e)]
            /\ last_logged_movies s1
               = PyDict.set username (title e) (last_logged_movies s))).
Proof.
  rewrite check_pair_run.
  destruct (feed env (now s) (construct_rss_url username)) as [|e es] eqn:Hfeed.
  { intros [= <-]. simpl. split; [lia|]. left. repeat split. discriminate. }
  destruct (differs (PyDict.get username (last_logged_movies s)) (title e))
    eqn:Hnew.
  2:{ intros [= <-]. simpl. split; [lia|]. left. repeat split.
      intros e' es' [= <- <-]. exact Hnew. }
  unfold announce. destruct (send_raises env (S (now s))); [discriminate|].
  intros Hsave.
  pose proof (save_data_frame env (announced chat_id username e s)) as Hframe.
  cbv zeta in Hframe. rewrite Hsave in Hframe. simpl in Hframe.
  destruct Hframe as (_ & Hlast & Hout & Hnow).
  split; [lia|]. right. exists e, es. repeat split; assumption.
Qed.

(** The notifications about one username that a completed loop adds, and
    the marker it leaves, when the feed of that username keeps the same
    latest entry. *)
Lemma for_items_notices username e items : forall s s',
  latest_is env (now s) username e ->
  for_items (check_pair env) items s = Returned tt s' ->
  filter (is_notice_about username) (outbox s')
  = filter (is_notice_about username) (outbox s)
      ++ match watching username items with
         | (d, _) :: _ =>
             if differs (PyDict.get username (last_logged_movies s)) (title e)
             then [Notice d username (title e) (link e)]
             else []
         | [] => []
         end
  /\ PyDict.get username (last_logged_movies s')
     = match watching username items with
       | _ :: _ => Some (title e)
       | [] => PyDict.get username (last_logged_movies s)
       end
  /\ now s <= now s'.
Proof.
  induction items as [|[d v] items IH]; intros s s' Hfeed Hrun; simpl in *.
  { injection Hrun as <-. rewrite app_nil_r. repeat split. lia. }
  unfold bind in Hrun.
  destruct (check_pair env d v s) as [[] s1|x s1] eqn:Hturn; [|discriminate].
  apply check_pair_returned in Hturn. destruct Hturn as [Hclock Hturn].
  assert (Hfeed1 : latest_is env (now s1) username e).
  { intros t Ht. apply Hfeed. lia. }
  destruct (IH s1 s' Hfeed1 Hrun) as (Hout & Hmark & Hclock').
  split; [|split]; [| |lia].
  - rewrite Hout. destruct (String.eqb_spec v username) as [->|Hother].
    + destruct (Hfeed (now s) (le_n _)) as [es Hentries].
      destruct Hturn as [(Ho & Hl & Hold)|(e' & es' & He' & Hnew & Ho & Hl)].
      * rewrite Ho, Hl, (Hold e es Hentries).
        rewrite app_nil_r.
        destruct (watching username items) as [|[d' ?] ?];
          now rewrite ?(Hold e es Hentries), ?app_nil_r.
      * rewrite Hentries in He'. injection He' as <- <-.
        rewrite Ho, Hl, Hnew, get_set_same, differs_same, filter_snoc.
        simpl. rewrite String.eqb_refl.
        destruct (watching username items) as [|[d' ?] ?];
          now rewrite ?app_nil_r.
    + destruct Hturn as [(Ho & Hl & _)|(e' & es' & _ & _ & Ho & Hl)].
      * now rewrite Ho, Hl.
      * rewrite Ho, Hl, filter_snoc, get_set_other by assumption.
        simpl. destruct (String.eqb_spec v username); [contradiction|].
        now rewrite app_nil_r.
  - rewrite Hmark. destruct (String.eqb_spec v username) as [->|Hother].
    + destruct (Hfeed (now s) (le_n _)) as [es Hentries].
      destruct Hturn as [(_ & Hl & Hold)|(e' & es' & He' & _ & _ & Hl)].
      * rewrite Hl. specialize (Hold e es Hentries).
        apply differs_false in Hold. rewrite Hold.
        now destruct (watching username items).
      * rewrite Hentries in He'. injection He' as <- <-.
        rewrite Hl, get_set_same. now destruct (watching username items).
    + destruct Hturn as [(_ & Hl & _)|(e' & es' & _ & _ & _ & Hl)].
      * now rewrite Hl.
      * now rewrite Hl, get_set_other by assumption.
Qed.

End Dedup.

(** C2, at concrete inputs, with alice's feed carrying the same single item
    on both runs.  (a) The marker already holds the item's title: no
    notification in either run.  (b) Nobody watches alice: no notification.
    (c) The transport rejects the notification of the first run: that run
    raises and delivers nothing, and the notification is delivered during
    the second run. *)
Lemma two_ticks_without_one_notification :
  let alice_feed := fun url =>
        if String.eqb url (construct_rss_url "alice")
        then [ {| title := "Dune Part Two"; link := "http://x/1" |} ]
        else [] in
  let twice env s :=
        state_of (check_for_new_movies env (state_of (check_for_new_movies env s))) in
  let rejecting_once :=
        {| feed := fun _ => alice_feed;
           send_raises := fun t => Nat.eqb t 1;
           save_outcome := fun _ => WriteOk |} in
  notices_about "alice"
    (outbox (twice (steady alice_feed)
               (fresh [(KInt 42, "alice")] [("alice", "Dune Part Two")]))) = 0
  /\ notices_about "alice" (outbox (twice (steady alice_feed) (fresh [] []))) = 0
  /\ check_for_new_movies rejecting_once (fresh [(KInt 42, "alice")] [])
     = Raised TelegramError (elapse (elapse (fresh [(KInt 42, "alice")] [])))
  /\ notices_about "alice"
       (outbox (state_of (check_for_new_movies rejecting_once
                            (fresh [(KInt 42, "alice")] [])))) = 0
  /\ notices_about "alice"
       (outbox (twice rejecting_once (fresh [(KInt 42, "alice")] []))) = 1.
Proof. intros alice_feed twice rejecting_once. repeat split. Qed.

(** C2, amended. For every identity that exactly one destination
    watches, when two ticks in succession both run to their end (no delivery
    or save raises), the feed of the identity has the same latest item
    throughout, and the title of that item differs from the marker stored
    before the first tick, exactly one notification about the identity is
    delivered in total: to that destination, during the first tick.  The
    second tick delivers none and the marker holds the title.  An identity
    that several destinations watch is left out of the statement. *)
Theorem dedup_two_ticks
  (env : Env) (s s1 s2 : State) (d : key) (identity : string) (e : entry)
  (Hfeed : latest_is env (now s) identity e)
  (Hsole : watching identity (subscribed_users s) = [(d, identity)])
  (Hnew : differs (PyDict.get identity (last_logged_movies s)) (title e) = true)
  (Hrun1 : check_for_new_movies env s = Returned tt s1)
  (Hrun2 : check_for_new_movies env s1 = Returned tt s2) :
  filter (is_notice_about identity) (outbox s1)
  = filter (is_notice_about identity) (outbox s)
      ++ [Notice d identity (title e) (link e)]
  /\ notices_about identity (outbox s1) = S (notices_about identity (outbox s))
  /\ notices_about identity (outbox s2) = notices_about identity (outbox s1)
  /\ PyDict.get identity (last_logged_movies s2) = Some (title e).
Proof.
  unfold check_for_new_movies, bind, gets in Hrun1, Hrun2.
  destruct (for_items_notices env identity e _ _ _ Hfeed Hrun1)
    as (Hout1 & Hmark1 & Hclock1).
  assert (Husers : subscribed_users s1 = subscribed_users s).
  { pose proof (for_items_effect env (subscribed_users s) s) as Heff.
    rewrite Hrun1 in Heff. apply Heff. }
  assert (Hfeed1 : latest_is env (now s1) identity e).
  { intros t Ht. apply Hfeed. lia. }
  destruct (for_items_notices env identity e _ _ _ Hfeed1 Hrun2)
    as (Hout2 & Hmark2 & _).
  rewrite Husers, Hsole in Hout2, Hmark2.
  rewrite Hsole, Hnew in Hout1.
  rewrite Hsole in Hmark1.
  rewrite Hmark1, differs_same, app_nil_r in Hout2.
  unfold notices_about. rewrite Hout2, Hout1, length_app. simpl.
  split; [reflexivity|]. split; [lia|]. split; [reflexivity | assumption].
Qed.

(** The scenario of the specification: destination 42 watches alice, whose
    feed carries "Dune Part Two" on two ticks in a row. *)
Lemma dedup_two_ticks_witness :
  let env := steady (fun url =>
               if String.eqb url (construct_rss_url "alice")
               then [ {| title := "Dune Part Two"; link := "http://x/1" |} ]
               else []) in
  let s := fresh [(KInt 7, "bob"); (KInt 42, "alice")] [] in
  let s1 := state_of (check_for_new_movies env s) in
  let s2 := state_of (check_for_new_movies env s1) in
  latest_is env (now s) "alice" {| title := "Dune Part Two"; link := "http://x/1" |}
  /\ watching "alice" (subscribed_users s) = [(KInt 42, "alice")]
  /\ differs (PyDict.get "alice" (last_logged_movies s)) "Dune Part Two" = true
  /\ check_for_new_movies env s = Returned tt s1
  /\ check_for_new_movies env s1 = Returned tt s2
  /\ outbox s2 = [Notice (KInt 42) "alice" "Dune Part Two" "http://x/1"]
  /\ filter (is_notice_about "alice") (outbox s1)
     = filter (is_notice_about "alice") (outbox s)
         ++ [Notice (KInt 42) "alice" "Dune Part Two" "http://x/1"]
  /\ notices_about "alice" (outbox s1) = S (notices_about "alice" (outbox s))
  /\ notices_about "alice" (outbox s2) = notices_about "alice" (outbox s1)
  /\ PyDict.get "alice" (last_logged_movies s2) = Some "Dune Part Two".
Proof.
  intros env s s1 s2.
  assert (Hfeed : latest_is env (now s) "alice"
                    {| title := "Dune Part Two"; link := "http://x/1" |}).
  { intros t _. now exists []. }
  refine (conj Hfeed (conj eq_refl (conj eq_refl (conj eq_refl (conj eq_refl
            (conj eq_refl _)))))).
  exact (dedup_two_ticks env s s1 s2 (KInt 42) "alice"
           {| title := "Dune Part Two"; link := "http://x/1" |}
           Hfeed eq_refl eq_refl eq_refl eq_refl).
Defined.

(** The scenario of the specification: destination 42 subscribes to alice;
    her feed carries "Dune Part Two" at the first two ticks and "Oppenheimer"
    at the third.  The first tick notifies 42, the second sends nothing, the
    third notifies 42 again and the marker ends at "Oppenheimer". *)
Example three_ticks_scenario :
  let env := {| feed := fun t _ =>
                  if Nat.ltb t 6
                  then [ {| title := "Dune Part Two"; link := "http://x/1" |} ]
                  else [ {| title := "Oppenheimer"; link := "http://x/2" |} ];
                send_raises := fun _ => false;
                save_outcome := fun _ => WriteOk |} in
  let s0 := state_of (subscribe env 42 ["alice"] (boot no_files)) in
  let s1 := state_of (check_for_new_movies env s0) in
  let s2 := state_of (check_for_new_movies env s1) in
  let s3 := state_of (check_for_new_movies env s2) in
  map text_of (outbox s1)
  = [ "Subscribed to updates for alice!";
      ("New movie logged by alice: Dune Part Two" ++ LF
         ++ "Watch it here: http://x/1")%string ]
  /\ outbox s2 = outbox s1
  /\ outbox s3
     = outbox s2 ++ [Notice (KInt 42) "alice" "Oppenheimer" "http://x/2"]
  /\ last_logged_movies s3 = [("alice", "Oppenheimer")]
  /\ disk s3
     = {| users_json := Some [("42", "alice")];
          last_logged_movies_json := Some [("alice", "Oppenheimer")] |}.
Proof. repeat split. Qed.

(** ** Well-formed registries and what a reload gives back *)

Section Persistence.
Variable env : Env.

Lemma wf_assign_all {K V} `{HashableLaws K} (ups : list (K * V)) d :
  PyDict.wf d -> PyDict.wf (assign_all ups d).
Proof.
  revert d. induction ups as [|[k v] ups IH]; intros d Hwf; simpl;
    [assumption|].
  apply IH. now apply wf_set.
Qed.

Lemma wf_of_pairs {K V} `{HashableLaws K} (ps : list (K * V)) :
  PyDict.wf (PyDict.of_pairs ps).
Proof. apply (wf_assign_all ps []). constructor. Qed.

Lemma wf_str_keys (d : PyDict.dict string string) :
  PyDict.wf d -> PyDict.wf (map (fun kv => (KStr (fst kv), snd kv)) d).
Proof.
  unfold PyDict.wf, PyDict.keys. rewrite map_map. simpl.
  rewrite <- (map_map fst KStr).
  apply Injective_map_NoDup. intros a b [= ->]. reflexivity.
Qed.

Lemma boot_wf d : registries_wf (boot d).
Proof. split; constructor. Qed.

Lemma load_data_wf s :
  registries_wf s -> registries_wf (state_of (load_data s)).
Proof.
  intros [Hu Hl]. unfold load_data, registries_wf, Json.load. simpl.
  destruct (users_json (disk s)) as [o|]; simpl;
    destruct (last_logged_movies_json (disk s)) as [o'|]; simpl;
    split;
    first [ assumption
          | apply wf_str_keys, wf_of_pairs
          | apply wf_of_pairs ].
Qed.

Lemma subscribe_wf chat_id args s :
  registries_wf s -> registries_wf (state_of (subscribe env chat_id args s)).
Proof.
  intros [Hu Hl]. destruct args as [|username rest].
  - unfold subscribe, reply_text.
    pose proof (bot_send_frame env
                  (Reply chat_id "Please provide your Letterboxd username.") s)
      as Hframe.
    cbv zeta in Hframe. destruct Hframe as (Hu' & Hl' & _).
    unfold registries_wf. now rewrite Hu', Hl'.
  - pose proof (subscribe_registries env chat_id username rest s) as Hreg.
    cbv zeta in Hreg. destruct Hreg as [Hu' Hl'].
    unfold registries_wf. rewrite Hu', Hl'. split; [now apply wf_set|assumption].
Qed.

Lemma unsubscribe_wf chat_id s :
  registries_wf s -> registries_wf (state_of (unsubscribe env chat_id s)).
Proof.
  intros [Hu Hl]. unfold registries_wf. rewrite unsubscribe_users.
  split; [now apply wf_del|].
  unfold unsubscribe, bind, gets, modify, reply_text, save_data, bot_send.
  destruct (PyDict.mem (KInt chat_id) (subscribed_users s)); simpl.
  - destruct (save_outcome env (now s)); simpl; auto.
    destruct (send_raises env (S (now s))); simpl; auto.
  - destruct (send_raises env (now s)); simpl; auto.
Qed.

Lemma check_for_new_movies_wf s :
  registries_wf s -> registries_wf (state_of (check_for_new_movies env s)).
Proof.
  intros [Hu Hl]. unfold check_for_new_movies, bind, gets.
  destruct (for_items_effect env (subscribed_users s) s) as (Hu' & [ups Hl'] & _).
  unfold registries_wf. rewrite Hu', Hl'.
  split; [assumption | now apply wf_assign_all].
Qed.

Lemma dump_str_keys (d : PyDict.dict string string) :
  Json.dump (fun k => k) d = d.
Proof.
  unfold Json.dump. induction d as [|[k v] d IH]; simpl; [reflexivity|].
  now rewrite IH.
Qed.

(** A registry whose keys are strings comes back from the file as it was
    written. *)
Lemma last_logged_movies_survive_restart s :
  save_outcome env (now s) = WriteOk ->
  PyDict.wf (last_logged_movies s) ->
  last_logged_movies
    (state_of (load_data (boot (disk (state_of (save_data env s))))))
  = last_logged_movies s.
Proof.
  intros Hok Hwf. rewrite (save_data_written env s Hok).
  unfold load_data, Json.load. simpl.
  rewrite dump_str_keys. now apply of_pairs_items.
Qed.

(** The subscriptions come back under the decimal text of their chat ids:
    every key of the reloaded registry is a string. *)
Lemma subscribed_users_after_restart s :
  save_outcome env (now s) = WriteOk ->
  NoDup (map Json.key_name (PyDict.keys (subscribed_users s))) ->
  subscribed_users
    (state_of (load_data (boot (disk (state_of (save_data env s))))))
  = map (fun kv => (KStr (Json.key_name (fst kv)), snd kv)) (subscribed_users s).
Proof.
  intros Hok Hnames. rewrite (save_data_written env s Hok).
  unfold load_data, Json.load. simpl.
  rewrite of_pairs_items.
  - unfold Json.dump. rewrite map_map. reflexivity.
  - unfold PyDict.wf, PyDict.keys, Json.dump. rewrite map_map. simpl.
    unfold PyDict.keys in Hnames. now rewrite map_map in Hnames.
Qed.

End Persistence.

(** * Further properties of the program *)

(** ** Feed addresses *)

Lemma append_length (a b : string) :
  String.length (a ++ b) = String.length a + String.length b.
Proof. induction a as [|c a IH]; simpl; [reflexivity | now rewrite IH]. Qed.

Lemma append_cancel_r (t a b : string) : (a ++ t = b ++ t)%string -> a = b.
Proof.
  intros Heq.
  assert (Hlen : String.length a = String.length b).
  { apply (f_equal String.length) in Heq. rewrite !append_length in Heq. lia. }
  revert b Heq Hlen. induction a as [|c a IH]; intros [|c' b] Heq Hlen;
    simpl in *; try discriminate; [reflexivity|].
  injection Heq as -> Heq. f_equal. apply IH; [assumption | lia].
Qed.

(** X1. Two usernames with the same feed address are the same username: no two
    watched identities are read from one feed. *)
Theorem construct_rss_url_injective (u v : string)
  (Hsame : construct_rss_url u = construct_rss_url v) : u = v.
Proof.
  unfold construct_rss_url in Hsame. simpl in Hsame.
  injection Hsame as Hsame. now apply append_cancel_r in Hsame.
Qed.

Lemma construct_rss_url_injective_witness :
  construct_rss_url "alice" = construct_rss_url "alice" /\ "alice" = "alice".
Proof.
  exact (conj eq_refl (construct_rss_url_injective "alice" "alice" eq_refl)).
Defined.

(** ** What [get_latest_movies] returns for every count *)

Lemma firstn_min_length {A} (n : nat) (xs : list A) :
  firstn (Nat.min n (List.length xs)) xs = firstn n xs.
Proof.
  destruct (Nat.le_ge_cases n (List.length xs)) as [Hle|Hge].
  - now rewrite Nat.min_l.
  - rewrite Nat.min_r by assumption. now rewrite firstn_all, firstn_all2.
Qed.

(** The list built from the entries, count by count. *)
Lemma movies_of_slice (entries : list entry) (count : Z) :
  movies_of entries count
  = map (fun e => (title e, link e))
      (firstn
         (Z.to_nat
            (if (0 <=? count)%Z
             then Z.min count (Z.of_nat (List.length entries))
             else Z.max 0 (Z.of_nat (List.length entries) + count)))
         entries).
Proof.
  unfold movies_of, slice_to.
  assert (Hn : Z.to_nat
                 (if (0 <=? count)%Z
                  then Z.min count (Z.of_nat (List.length entries))
                  else Z.max 0 (Z.of_nat (List.length entries) + count))
               = if (0 <=? count)%Z
                 then Nat.min (Z.to_nat count) (List.length entries)
                 else List.length entries - Z.to_nat (- count)).
  { destruct (Z.leb_spec 0 count); lia. }
  rewrite Hn. destruct entries as [|e es].
  - now rewrite firstn_nil.
  - destruct (0 <=? count)%Z; [now rewrite firstn_min_length | reflexivity].
Qed.

(** ** The handlers that only read *)

(** X3. [start], [fetch_movie], [list_subscriptions], [inline_query] and a
    [subscribe] without argument change neither registry and write no file,
    whatever their arguments, the feed and the transport. *)
Theorem readers_leave_registries_and_files
  (env : Env) (s : State) (chat_id : Z) (args : list string)
  (uuid query : string) :
  let same (s' : State) :=
    subscribed_users s' = subscribed_users s
    /\ last_logged_movies s' = last_logged_movies s
    /\ disk s' = disk s in
  same (state_of (start env chat_id s))
  /\ same (state_of (fetch_movie env chat_id args s))
  /\ same (state_of (list_subscriptions env chat_id s))
  /\ same (state_of (inline_query env uuid query s))
  /\ same (state_of (subscribe env chat_id [] s)).
Proof.
  intros same. unfold same.
  assert (Hreply : forall text s0,
             subscribed_users (state_of (reply_text env chat_id text s0))
             = subscribed_users s0
             /\ last_logged_movies (state_of (reply_text env chat_id text s0))
                = last_logged_movies s0
             /\ disk (state_of (reply_text env chat_id text s0)) = disk s0).
  { intros text s0. unfold reply_text.
    pose proof (bot_send_frame env (Reply chat_id text) s0) as Hframe.
    cbv zeta in Hframe. tauto. }
  split; [apply Hreply|]. split; [|split; [|split]].
  - unfold fetch_movie. destruct args as [|username rest]; [apply Hreply|].
    unfold get_latest_movies, bind, feedparser_parse, ret.
    destruct (movies_of _ 5); apply (Hreply _ (elapse s)).
  - unfold list_subscriptions, bind, gets.
    destruct (PyDict.get (KInt chat_id) (subscribed_users s)); apply Hreply.
  - unfold inline_query. destruct (String.eqb query ""); [now simpl|].
    unfold get_latest_movies, bind, feedparser_parse, ret.
    destruct (movies_of _ 1) as [|[t l] ms]; [now simpl|].
    unfold answer. simpl. now destruct (send_raises env (S (now s))).
  - apply Hreply.
Qed.

(** X4. Given a username, [fetch_movie] reads the feed once and answers with
    one message: the fixed text when the feed has no entries, otherwise the
    first five entries at most, in feed order, one block per movie separated
    by an empty line. *)
Theorem fetch_movie_reply
  (env : Env) (s : State) (chat_id : Z) (username : string) (rest : list string) :
  fetch_movie env chat_id (username :: rest) s
  = reply_text env chat_id
      match feed env (now s) (construct_rss_url username) with
      | [] => "No recent movies logged or invalid username."
      | entries =>
          String.concat (LF ++ LF)%string
            (map (fun e => (title e ++ LF ++ "Watch it here: " ++ link e)%string)
               (firstn 5 entries))
      end
      (elapse s).
Proof.
  unfold fetch_movie, get_latest_movies, bind, feedparser_parse, ret.
  rewrite movies_of_slice.
  change (0 <=? 5)%Z with true. cbv iota.
  set (entries := feed env (now s) (construct_rss_url username)).
  replace (Z.to_nat (Z.min 5 (Z.of_nat (List.length entries))))
    with (Nat.min 5 (List.length entries)) by lia.
  rewrite firstn_min_length. clearbody entries.
  destruct entries as [|e es]; [reflexivity|].
  rewrite map_map. reflexivity.
Qed.

(** ** How the commands compose *)

Section Commands.
Variable env : Env.

Lemma get_none_notin {K V} `{HashableLaws K} (k : K) (d : PyDict.dict K V) :
  PyDict.get k d = None -> ~ In k (PyDict.keys d).
Proof.
  intros Hget. apply mem_false_notin. unfold PyDict.mem. now rewrite Hget.
Qed.

Lemma del_appended {K V} `{HashableLaws K} (k : K) (v : V) (d : PyDict.dict K V) :
  ~ In k (PyDict.keys d) -> PyDict.del k (d ++ [(k, v)]) = d.
Proof.
  induction d as [|[k' v'] d IH]; simpl; intros Hnin.
  - now rewrite keq_refl.
  - rewrite keq_neq by (intros ->; tauto). f_equal. apply IH. tauto.
Qed.

Lemma keys_del_subseq {K V} `{Hashable K} (k : K) (d : PyDict.dict K V) :
  subseq (PyDict.del k d) d.
Proof.
  induction d as [|[k' v'] d IH]; simpl; [constructor|].
  destruct (keq k k'); now constructor.
Qed.

End Commands.

(** X5. After [subscribe d identity], whether or not the save and the
    confirmation went through, [list_subscriptions d] answers with that
    identity. *)
Theorem list_after_subscribe
  (env : Env) (s : State) (d : Z) (identity : string) (rest : list string) :
  list_subscriptions env d (state_of (subscribe env d (identity :: rest) s))
  = reply_text env d ("You are subscribed to updates for: " ++ identity)%string
      (state_of (subscribe env d (identity :: rest) s)).
Proof.
  pose proof (subscribe_registries env d identity rest s) as Hreg.
  cbv zeta in Hreg. destruct Hreg as [Hu _].
  unfold list_subscriptions, bind, gets. now rewrite Hu, get_set_same.
Qed.

(** X6. A destination watches one identity at a time and the last [subscribe]
    wins: after subscribing [d] to [a] and then to [b], the registry holds
    [b] for [d] in a single item, every other destination keeps what it
    had, and the iteration order of the destinations is the one a single
    [subscribe] would give. *)
Theorem resubscribe_last_write_wins
  (env : Env) (s : State) (d : Z) (a b : string) (ra rb : list string)
  (Hwf : PyDict.wf (subscribed_users s)) :
  let s2 := state_of (subscribe env d (b :: rb)
                        (state_of (subscribe env d (a :: ra) s))) in
  PyDict.get (KInt d) (subscribed_users s2) = Some b
  /\ PyDict.entries_for (KInt d) (subscribed_users s2) = 1
  /\ (forall k, k <> KInt d ->
        PyDict.get k (subscribed_users s2) = PyDict.get k (subscribed_users s))
  /\ PyDict.keys (subscribed_users s2)
     = PyDict.keys (subscribed_users (state_of (subscribe env d (b :: rb) s))).
Proof.
  intros s2. subst s2.
  pose proof (subscribe_registries env d a ra s) as H1.
  pose proof (subscribe_registries env d b rb
                (state_of (subscribe env d (a :: ra) s))) as H2.
  pose proof (subscribe_registries env d b rb s) as H3.
  cbv zeta in H1, H2, H3.
  destruct H1 as [U1 _], H2 as [U2 _], H3 as [U3 _].
  rewrite U2, U1, U3. repeat split.
  - apply get_set_same.
  - apply entries_for_set. now apply wf_set.
  - intros k Hk. rewrite !get_set_other by congruence. reflexivity.
  - rewrite (keys_set (KInt d) b (PyDict.set (KInt d) a (subscribed_users s))).
    unfold PyDict.mem. rewrite get_set_same.
    rewrite (keys_set (KInt d) a), (keys_set (KInt d) b).
    reflexivity.
Qed.

Lemma resubscribe_last_write_wins_witness :
  PyDict.wf (subscribed_users (fresh [(KInt 7, "bob")] []))
  /\ PyDict.get (KInt 42)
       (subscribed_users
          (state_of
             (subscribe (steady (fun _ => [])) 42 ["carol"]
                (state_of
                   (subscribe (steady (fun _ => [])) 42 ["alice"]
                      (fresh [(KInt 7, "bob")] []))))))
     = Some "carol".
Proof.
  assert (Hwf : PyDict.wf (subscribed_users (fresh [(KInt 7, "bob")] []))).
  { repeat constructor. simpl. tauto. }
  exact (conj Hwf
           (proj1 (resubscribe_last_write_wins (steady (fun _ => []))
                     (fresh [(KInt 7, "bob")] []) 42 "alice" "carol" [] [] Hwf))).
Defined.

(** X7. [unsubscribe d] touches the item of [d] only: every other destination
    keeps its identity, the remaining items keep their order, and
    [last_logged_movies] is left as it is: the marker of the identity that
    [d] watched stays behind. *)
Theorem unsubscribe_touches_one_item (env : Env) (s : State) (d : Z) :
  let s1 := state_of (unsubscribe env d s) in
  (forall k, k <> KInt d ->
     PyDict.get k (subscribed_users s1) = PyDict.get k (subscribed_users s))
  /\ subseq (subscribed_users s1) (subscribed_users s)
  /\ last_logged_movies s1 = last_logged_movies s.
Proof.
  intros s1. subst s1. rewrite unsubscribe_users. repeat split.
  - intros k Hk. apply get_del_other. congruence.
  - apply keys_del_subseq.
  - unfold unsubscribe, bind, gets, modify, reply_text, save_data, bot_send.
    destruct (PyDict.mem (KInt d) (subscribed_users s)); simpl.
    + destruct (save_outcome env (now s)); simpl; auto.
      destruct (send_raises env (S (now s))); simpl; auto.
    + destruct (send_raises env (now s)); simpl; auto.
Qed.

Lemma unsubscribe_touches_one_item_witness :
  KInt 7 <> KInt 42
  /\ PyDict.get (KInt 7)
       (subscribed_users
          (state_of (unsubscribe (steady (fun _ => [])) 42
                       (fresh [(KInt 42, "alice"); (KInt 7, "bob")]
                          [("alice", "Dune Part Two")]))))
     = PyDict.get (KInt 7)
         (subscribed_users
            (fresh [(KInt 42, "alice"); (KInt 7, "bob")]
               [("alice", "Dune Part Two")])).
Proof.
  assert (Hne : KInt 7 <> KInt 42) by discriminate.
  exact (conj Hne
           (proj1 (unsubscribe_touches_one_item (steady (fun _ => []))
                     (fresh [(KInt 42, "alice"); (KInt 7, "bob")]
                        [("alice", "Dune Part Two")]) 42)
              (KInt 7) Hne)).
Defined.

(** X8. For a destination that was not subscribed, [subscribe] followed by
    [unsubscribe] gives back the registry as it was, item for item. *)
Theorem subscribe_then_unsubscribe
  (env : Env) (s : State) (d : Z) (identity : string) (rest : list string)
  (Habsent : PyDict.get (KInt d) (subscribed_users s) = None) :
  subscribed_users
    (state_of (unsubscribe env d
                 (state_of (subscribe env d (identity :: rest) s))))
  = subscribed_users s.
Proof.
  pose proof (subscribe_registries env d identity rest s) as Hreg.
  cbv zeta in Hreg. destruct Hreg as [Hu _].
  rewrite unsubscribe_users, Hu.
  apply get_none_notin in Habsent.
  rewrite (set_absent _ _ _ Habsent). now apply del_appended.
Qed.

Lemma subscribe_then_unsubscribe_witness :
  PyDict.get (KInt 42) (subscribed_users (fresh [(KInt 7, "bob")] [])) = None
  /\ subscribed_users
       (state_of (unsubscribe (steady (fun _ => [])) 42
                    (state_of (subscribe (steady (fun _ => [])) 42 ["alice"]
                                 (fresh [(KInt 7, "bob")] [])))))
     = subscribed_users (fresh [(KInt 7, "bob")] []).
Proof.
  exact (conj eq_refl
           (subscribe_then_unsubscribe (steady (fun _ => []))
              (fresh [(KInt 7, "bob")] []) 42 "alice" [] eq_refl)).
Defined.

(** ** What a tick sends *)

Section Subsequences.
Context {A : Type}.

Lemma subseq_nil_l (ys : list A) : subseq [] ys.
Proof. induction ys; now constructor. Qed.

Lemma subseq_length (xs ys : list A) :
  subseq xs ys -> List.length xs <= List.length ys.
Proof. induction 1; simpl; lia. Qed.

Lemma subseq_In (xs ys : list A) (x : A) : subseq xs ys -> In x xs -> In x ys.
Proof.
  induction 1 as [|y xs ys _ IH|y xs ys _ IH]; simpl; [tauto| tauto|].
  intros [->|Hin]; [now left | right; now apply IH].
Qed.

Lemma subseq_map {B} (f : A -> B) (xs ys : list A) :
  subseq xs ys -> subseq (map f xs) (map f ys).
Proof. induction 1; simpl; now constructor. Qed.

Lemma subseq_NoDup (xs ys : list A) : subseq xs ys -> NoDup ys -> NoDup xs.
Proof.
  induction 1 as [|y xs ys Hsub IH|y xs ys Hsub IH]; intros Hnd.
  - constructor.
  - inversion Hnd; subst. now apply IH.
  - inversion Hnd as [|? ? Hnin Hnd']; subst. constructor; [|now apply IH].
    intros Hin. apply Hnin. now apply (subseq_In xs ys).
Qed.

End Subsequences.

Section TickOutput.
Variable env : Env.

(** A turn of the loop, whether it returns or raises, either leaves outbox,
    marker and files alone, or has found a new item, delivered its
    notification and assigned the marker. *)
Lemma check_pair_outcome chat_id username s :
  now s <= now (state_of (check_pair env chat_id username s))
  /\ ((outbox (state_of (check_pair env chat_id username s)) = outbox s
       /\ last_logged_movies (state_of (check_pair env chat_id username s))
          = last_logged_movies s
       /\ disk (state_of (check_pair env chat_id username s)) = disk s)
      \/ (exists e es,
            feed env (now s) (construct_rss_url username) = e :: es
            /\ differs (PyDict.get username (last_logged_movies s)) (title e)
               = true
            /\ outbox (state_of (check_pair env chat_id username s))
               = outbox s ++ [Notice chat_id username (title e) (link e)]
            /\ last_logged_movies (state_of (check_pair env chat_id username s))
               = PyDict.set username (title e) (last_logged_movies s))).
Proof.
  rewrite check_pair_run.
  destruct (feed env (now s) (construct_rss_url username)) as [|e es] eqn:Hfeed.
  { simpl. split; [lia|]. left. now repeat split. }
  destruct (differs (PyDict.get username (last_logged_movies s)) (title e))
    eqn:Hnew.
  2:{ simpl. split; [lia|]. left. now repeat split. }
  unfold announce. destruct (send_raises env (S (now s))).
  { simpl. split; [lia|]. left. now repeat split. }
  pose proof (save_data_frame env (announced chat_id username e s)) as Hframe.
  cbv zeta in Hframe. simpl in Hframe. destruct Hframe as (_ & Hl & Ho & Hn).
  split; [lia|]. right. exists e, es. now repeat split.
Qed.

Lemma for_items_step (k : key) (v : string) items s :
  state_of (for_items (check_pair env) ((k, v) :: items) s)
  = match check_pair env k v s with
    | Returned _ s1 => state_of (for_items (check_pair env) items s1)
    | Raised _ s1 => s1
    end.
Proof. simpl. unfold bind. now destruct (check_pair env k v s). Qed.

Lemma for_items_sends items : forall s,
  exists delta,
    outbox (state_of (for_items (check_pair env) items s)) = outbox s ++ delta
    /\ forallb is_notice delta = true
    /\ subseq (flat_map notice_pair delta) items.
Proof.
  induction items as [|[d u] items IH]; intros s.
  { exists []. simpl. rewrite app_nil_r. repeat split. constructor. }
  rewrite for_items_step.
  destruct (check_pair_outcome d u s) as [_ Hturn].
  destruct (check_pair env d u s) as [[] s1|x s1]; simpl in Hturn.
  - destruct (IH s1) as (delta & Hout & Hnot & Hsub).
    destruct Hturn as [(Ho & _)|(e & es & _ & _ & Ho & _)].
    + exists delta. rewrite Hout, Ho. split; [reflexivity|].
      split; [assumption | now apply subseq_skip].
    + exists (Notice d u (title e) (link e) :: delta).
      rewrite Hout, Ho, <- app_assoc. simpl. split; [reflexivity|].
      split; [assumption | now apply subseq_keep].
  - destruct Hturn as [(Ho & _)|(e & es & _ & _ & Ho & _)].
    + exists []. rewrite Ho, app_nil_r. split; [reflexivity|].
      split; [reflexivity | apply subseq_nil_l].
    + exists [Notice d u (title e) (link e)]. rewrite Ho.
      split; [reflexivity|]. split; [reflexivity|].
      simpl. apply subseq_keep, subseq_nil_l.
Qed.

End TickOutput.

(** X9. Whether it returns or raises, a tick only appends to the outbox, and
    what it appends are notifications for (destination, identity) pairs of
    the registry, in iteration order, each item of the registry used at most
    once: nobody is notified about an identity they do not watch, and a
    tick sends at most as many notifications as there are subscriptions. *)
Theorem tick_notifies_subscribed_pairs (env : Env) (s : State) :
  exists delta,
    outbox (state_of (check_for_new_movies env s)) = outbox s ++ delta
    /\ forallb is_notice delta = true
    /\ subseq (flat_map notice_pair delta) (subscribed_users s)
    /\ List.length delta <= List.length (subscribed_users s).
Proof.
  unfold check_for_new_movies, bind, gets.
  destruct (for_items_sends env (subscribed_users s) s) as (delta & Ho & Hn & Hs).
  exists delta. repeat split; try assumption.
  apply subseq_length in Hs.
  assert (Hlen : List.length (flat_map notice_pair delta) = List.length delta).
  { clear -Hn. induction delta as [|[c t|c u t l] delta IH]; simpl in *;
      [reflexivity | discriminate | now rewrite IH]. }
  lia.
Qed.

(** X10. In a registry whose keys are distinct, as those of a dictionary are, a
    tick sends each destination at most one notification. *)
Theorem tick_notifies_each_destination_once
  (env : Env) (s : State) (Hwf : PyDict.wf (subscribed_users s)) :
  exists delta,
    outbox (state_of (check_for_new_movies env s)) = outbox s ++ delta
    /\ NoDup (map fst (flat_map notice_pair delta)).
Proof.
  unfold check_for_new_movies, bind, gets.
  destruct (for_items_sends env (subscribed_users s) s) as (delta & Ho & _ & Hs).
  exists delta. split; [assumption|].
  apply (subseq_NoDup _ (map fst (subscribed_users s))); [|exact Hwf].
  now apply subseq_map.
Qed.

Lemma tick_notifies_each_destination_once_witness :
  PyDict.wf (subscribed_users (fresh [(KInt 1, "alice"); (KInt 2, "alice")] []))
  /\ exists delta,
       outbox (state_of (check_for_new_movies
                           (steady (fun _ => [ {| title := "Movie A";
                                                  link := "http://x/a" |} ]))
                           (fresh [(KInt 1, "alice"); (KInt 2, "alice")] [])))
       = outbox (fresh [(KInt 1, "alice"); (KInt 2, "alice")] []) ++ delta
       /\ NoDup (map fst (flat_map notice_pair delta)).
Proof.
  assert (Hwf : PyDict.wf
                  (subscribed_users
                     (fresh [(KInt 1, "alice"); (KInt 2, "alice")] []))).
  { repeat constructor; simpl; intuition discriminate. }
  exact (conj Hwf
           (tick_notifies_each_destination_once
              (steady (fun _ => [ {| title := "Movie A"; link := "http://x/a" |} ]))
              (fresh [(KInt 1, "alice"); (KInt 2, "alice")] []) Hwf)).
Defined.

(** ** Markers and notifications *)

Section Markers.
Variable env : Env.

Lemma notices_about_snoc username ms m :
  notices_about username (ms ++ [m])
  = notices_about username ms + (if is_notice_about username m then 1 else 0).
Proof.
  unfold notices_about. rewrite filter_snoc, length_app.
  now destruct (is_notice_about username m).
Qed.

Lemma for_items_marker username items : forall s,
  notices_about username (outbox s)
  <= notices_about username (outbox (state_of (for_items (check_pair env) items s)))
  /\ (notices_about username
        (outbox (state_of (for_items (check_pair env) items s)))
      = notices_about username (outbox s) ->
      PyDict.get username
        (last_logged_movies (state_of (for_items (check_pair env) items s)))
      = PyDict.get username (last_logged_movies s)).
Proof.
  induction items as [|[d v] items IH]; intros s.
  { simpl. split; [lia | reflexivity]. }
  rewrite for_items_step.
  destruct (check_pair_outcome env d v s) as [_ Hturn].
  assert (Hone :
    notices_about username (outbox s)
    <= notices_about username (outbox (state_of (check_pair env d v s)))
    /\ (notices_about username (outbox (state_of (check_pair env d v s)))
        = notices_about username (outbox s) ->
        PyDict.get username
          (last_logged_movies (state_of (check_pair env d v s)))
        = PyDict.get username (last_logged_movies s))).
  { destruct Hturn as [(Ho & Hl & _)|(e & es & _ & _ & Ho & Hl)].
    - rewrite Ho, Hl. split; [lia | reflexivity].
    - rewrite Ho, Hl, notices_about_snoc. simpl.
      destruct (String.eqb_spec v username) as [->|Hne].
      + split; [lia|]. intros Heq. lia.
      + split; [lia|]. intros _. now apply get_set_other. }
  destruct (check_pair env d v s) as [[] s1|x s1]; simpl in Hone; [|exact Hone].
  destruct (IH s1) as [Hle Hsame]. destruct Hone as [Hle1 Hsame1].
  split; [lia|]. intros Heq. rewrite Hsame by lia. apply Hsame1. lia.
Qed.

End Markers.

(** X11. Whether a tick returns or raises, it advances the marker of an identity
    only after delivering a notification about that identity: the count of
    delivered notifications about it never goes down, and if it has not
    gone up the marker is what it was. *)
Theorem marker_moves_only_with_notice (env : Env) (s : State) (identity : string) :
  let s' := state_of (check_for_new_movies env s) in
  notices_about identity (outbox s) <= notices_about identity (outbox s')
  /\ (notices_about identity (outbox s') = notices_about identity (outbox s) ->
      PyDict.get identity (last_logged_movies s')
      = PyDict.get identity (last_logged_movies s)).
Proof.
  intros s'. subst s'. unfold check_for_new_movies, bind, gets.
  apply for_items_marker.
Qed.

(** A transport that rejects everything: no notification is delivered and
    no marker is stored. *)
Lemma marker_moves_only_with_notice_witness :
  let env := {| feed := fun _ _ => [ {| title := "Movie A"; link := "http://x/a" |} ];
                send_raises := fun _ => true;
                save_outcome := fun _ => WriteOk |} in
  let s := fresh [(KInt 1, "alice")] [] in
  notices_about "alice" (outbox (state_of (check_for_new_movies env s)))
  = notices_about "alice" (outbox s)
  /\ PyDict.get "alice" (last_logged_movies (state_of (check_for_new_movies env s)))
     = PyDict.get "alice" (last_logged_movies s).
Proof.
  intros env s.
  exact (conj eq_refl
           (proj2 (marker_moves_only_with_notice env s "alice") eq_refl)).
Defined.

(** ** Ticks that have nothing to report *)

Section Quiet.
Variable env : Env.

Lemma later_elapse n s : later n (elapse s) = later (S n) s.
Proof. unfold later, elapse. simpl. f_equal. lia. Qed.

Lemma for_items_quiet items : forall s,
  up_to_date env (now s) items (last_logged_movies s) ->
  for_items (check_pair env) items s
  = Returned tt (later (List.length items) s).
Proof.
  induction items as [|[d u] items IH]; intros s Hup.
  { simpl. unfold ret, later. now destruct s. }
  simpl. unfold bind.
  assert (Hturn : check_pair env d u s = Returned tt (elapse s)).
  { rewrite check_pair_run.
    destruct (feed env (now s) (construct_rss_url u)) as [|e es] eqn:Hfeed;
      [reflexivity|].
    rewrite (Hup d u (or_introl eq_refl) (now s) e es (le_n _) Hfeed).
    now rewrite differs_same. }
  rewrite Hturn, IH; [now rewrite later_elapse|].
  intros d' u' Hin t e es Ht Hfeed.
  apply (Hup d' u' (or_intror Hin) t e es); [simpl in Ht; lia | assumption].
Qed.

Lemma in_watching d u users : In (d, u) users -> watching u users <> [].
Proof.
  intros Hin Hnil.
  assert (Hw : In (d, u) (watching u users)).
  { apply filter_In. split; [assumption|]. simpl. apply String.eqb_refl. }
  rewrite Hnil in Hw. exact Hw.
Qed.

End Quiet.

(** X12. When every watched identity whose feed has entries already has the
    title of its latest entry as marker, a tick returns after one fetch per
    subscription and has sent nothing, saved nothing and changed no
    registry. *)
Theorem tick_quiet (env : Env) (s : State)
  (Hup : up_to_date env (now s) (subscribed_users s) (last_logged_movies s)) :
  check_for_new_movies env s
  = Returned tt (later (List.length (subscribed_users s)) s).
Proof.
  unfold check_for_new_movies, bind, gets. now apply for_items_quiet.
Qed.

Lemma tick_quiet_witness :
  let env := steady (fun _ => [ {| title := "Dune Part Two"; link := "http://x/1" |} ]) in
  let s := fresh [(KInt 42, "alice")] [("alice", "Dune Part Two")] in
  up_to_date env (now s) (subscribed_users s) (last_logged_movies s)
  /\ check_for_new_movies env s = Returned tt (later 1 s).
Proof.
  intros env s.
  assert (Hup : up_to_date env (now s) (subscribed_users s) (last_logged_movies s)).
  { intros d u [[= <- <-]|[]] t e es _ [= <- <-]. reflexivity. }
  exact (conj Hup (tick_quiet env s Hup)).
Defined.

(** X13. A tick is idempotent over feeds that do not change: after a tick that
    ran to its end, a second tick over the same feeds sends nothing, saves
    nothing and leaves both registries as the first one left them. *)
Theorem second_tick_quiet (env : Env) (s s1 : State)
  (Hfeeds : feeds_unchanged env (now s) (subscribed_users s))
  (Hrun : check_for_new_movies env s = Returned tt s1) :
  check_for_new_movies env s1
  = Returned tt (later (List.length (subscribed_users s1)) s1).
Proof.
  unfold check_for_new_movies at 1. unfold bind, gets.
  apply for_items_quiet.
  unfold check_for_new_movies, bind, gets in Hrun.
  pose proof (for_items_effect env (subscribed_users s) s) as Heff.
  rewrite Hrun in Heff. simpl in Heff. destruct Heff as (Husers & _ & Hclock).
  rewrite Husers. intros d u Hin t e es Ht Hfeed.
  assert (Hlatest : latest_is env (now s) u e).
  { intros t' Ht'. exists es.
    rewrite (Hfeeds d u Hin t' Ht'), <- (Hfeeds d u Hin t); [assumption|lia]. }
  destruct (for_items_notices env u e (subscribed_users s) s s1 Hlatest Hrun)
    as (_ & Hmark & _).
  rewrite Hmark.
  pose proof (in_watching d u (subscribed_users s) Hin) as Hw.
  now destruct (watching u (subscribed_users s)).
Qed.

Lemma second_tick_quiet_witness :
  let env := steady (fun _ => [ {| title := "Dune Part Two"; link := "http://x/1" |} ]) in
  let s := fresh [(KInt 42, "alice"); (KInt 7, "bob")] [] in
  let s1 := state_of (check_for_new_movies env s) in
  feeds_unchanged env (now s) (subscribed_users s)
  /\ check_for_new_movies env s = Returned tt s1
  /\ List.length (outbox s1) = 2
  /\ check_for_new_movies env s1 = Returned tt (later 2 s1).
Proof.
  intros env s s1.
  assert (Hfeeds : feeds_unchanged env (now s) (subscribed_users s)).
  { intros d u _ t _. reflexivity. }
  exact (conj Hfeeds (conj eq_refl (conj eq_refl
           (second_tick_quiet env s s1 Hfeeds eq_refl)))).
Defined.

(** ** Retrying a rejected notification *)

(** X14. When the transport rejects the notification of a pair, the turn raises
    with the marker where it was; at the next turn of the pair, with the
    same latest entry, a transport that accepts and a save that succeeds,
    the notification is delivered and the marker advanced. *)
Theorem rejected_notification_is_retried
  (env : Env) (s : State) (d : key) (identity : string)
  (e : entry) (es es' : list entry)
  (Hfeed : feed env (now s) (construct_rss_url identity) = e :: es)
  (Hnew : differs (PyDict.get identity (last_logged_movies s)) (title e) = true)
  (Hrejected : send_raises env (S (now s)) = true)
  (Hfeed' : feed env (S (S (now s))) (construct_rss_url identity) = e :: es')
  (Haccepted : send_raises env (S (S (S (now s)))) = false)
  (Hsaved : save_outcome env (S (S (S (S (now s))))) = WriteOk) :
  check_pair env d identity s = Raised TelegramError (elapse (elapse s))
  /\ exists s2,
       check_pair env d identity (elapse (elapse s)) = Returned tt s2
       /\ outbox s2 = outbox s ++ [Notice d identity (title e) (link e)]
       /\ PyDict.get identity (last_logged_movies s2) = Some (title e).
Proof.
  split.
  - rewrite check_pair_run, Hfeed, Hnew. unfold announce. now rewrite Hrejected.
  - rewrite check_pair_run. simpl. rewrite Hfeed', Hnew. unfold announce.
    simpl. rewrite Haccepted. rewrite save_data_written by exact Hsaved.
    eexists. split; [reflexivity|]. simpl. split; [reflexivity|].
    apply get_set_same.
Qed.

Lemma rejected_notification_is_retried_witness :
  let env := {| feed := fun _ _ => [ {| title := "Movie A"; link := "http://x/a" |} ];
                send_raises := fun t => Nat.eqb t 1;
                save_outcome := fun _ => WriteOk |} in
  let s := fresh [(KInt 1, "alice")] [] in
  check_pair env (KInt 1) "alice" s = Raised TelegramError (elapse (elapse s))
  /\ exists s2,
       check_pair env (KInt 1) "alice" (elapse (elapse s)) = Returned tt s2
       /\ outbox s2 = outbox s ++ [Notice (KInt 1) "alice" "Movie A" "http://x/a"]
       /\ PyDict.get "alice" (last_logged_movies s2) = Some "Movie A".
Proof.
  intros env s.
  exact (rejected_notification_is_retried env s (KInt 1) "alice"
           {| title := "Movie A"; link := "http://x/a" |} [] []
           eq_refl eq_refl eq_refl eq_refl eq_refl eq_refl).
Defined.

(** ** Files in step with memory *)

Section Synced.
Variable env : Env.

Lemma synced_elapse s : synced s -> synced (elapse s).
Proof. exact (fun H => H). Qed.

Lemma save_data_returned s s1 :
  save_data env s = Returned tt s1 ->
  synced s1
  /\ subscribed_users s1 = subscribed_users s
  /\ last_logged_movies s1 = last_logged_movies s.
Proof.
  unfold save_data. destruct (save_outcome env (now s)); [|discriminate..].
  intros [= <-]. now repeat split.
Qed.

Lemma bot_send_synced m s : synced s -> synced (state_of (bot_send env m s)).
Proof.
  unfold synced. pose proof (bot_send_frame env m s) as Hframe.
  cbv zeta in Hframe. destruct Hframe as (-> & -> & -> & _). tauto.
Qed.

Lemma check_pair_synced d u s s1 :
  synced s -> check_pair env d u s = Returned tt s1 -> synced s1.
Proof.
  intros Hs. rewrite check_pair_run.
  destruct (feed env (now s) (construct_rss_url u)) as [|e es].
  { now intros [= <-]. }
  destruct (differs (PyDict.get u (last_logged_movies s)) (title e)).
  2:{ now intros [= <-]. }
  unfold announce. destruct (send_raises env (S (now s))); [discriminate|].
  intros Hsave. now apply save_data_returned in Hsave.
Qed.

Lemma for_items_synced items : forall s s1,
  synced s -> for_items (check_pair env) items s = Returned tt s1 -> synced s1.
Proof.
  induction items as [|[d u] items IH]; intros s s1 Hs; simpl.
  { now intros [= <-]. }
  unfold bind. destruct (check_pair env d u s) as [[] s0|x s0] eqn:Hturn;
    [|discriminate].
  apply IH. now apply (check_pair_synced d u s).
Qed.

End Synced.

(** X15. Once the two files hold the registries in memory, they still do after
    every handler that returns without an exception: [subscribe],
    [unsubscribe], [list_subscriptions] and a whole tick.  A [subscribe]
    with a username that returns brings the files in step whatever they
    held before. *)
Theorem files_follow_memory (env : Env) (s : State) (Hsynced : synced s) :
  (forall d args s1, subscribe env d args s = Returned tt s1 -> synced s1)
  /\ (forall d s1, unsubscribe env d s = Returned tt s1 -> synced s1)
  /\ (forall d s1, list_subscriptions env d s = Returned tt s1 -> synced s1)
  /\ (forall s1, check_for_new_movies env s = Returned tt s1 -> synced s1)
  /\ (forall s0 d identity rest s1,
        subscribe env d (identity :: rest) s0 = Returned tt s1 -> synced s1).
Proof.
  assert (Hreply : forall d text s0 s1,
             synced s0 -> reply_text env d text s0 = Returned tt s1 -> synced s1).
  { intros d text s0 s1 Hs0 Hrun.
    pose proof (bot_send_synced env (Reply d text) s0 Hs0) as Hs1.
    unfold reply_text in Hrun. now rewrite Hrun in Hs1. }
  assert (Hsub : forall s0 d identity rest s1,
             subscribe env d (identity :: rest) s0 = Returned tt s1 -> synced s1).
  { intros s0 d identity rest s1. unfold subscribe, bind, modify.
    destruct (save_data env _) as [[] s2|x s2] eqn:Hsave; [|discriminate].
    apply save_data_returned in Hsave. destruct Hsave as (Hs2 & _).
    now apply Hreply. }
  split; [|split; [|split; [|split]]].
  - intros d [|identity rest] s1; [now apply Hreply | apply Hsub].
  - intros d s1. unfold unsubscribe, bind, gets, modify.
    destruct (PyDict.mem (KInt d) (subscribed_users s)); [|now apply Hreply].
    destruct (save_data env _) as [[] s2|x s2] eqn:Hsave; [|discriminate].
    apply save_data_returned in Hsave. destruct Hsave as (Hs2 & _).
    now apply Hreply.
  - intros d s1. unfold list_subscriptions, bind, gets.
    destruct (PyDict.get (KInt d) (subscribed_users s)); now apply Hreply.
  - intros s1. unfold check_for_new_movies, bind, gets.
    now apply for_items_synced.
  - exact Hsub.
Qed.

Lemma files_follow_memory_witness :
  let env := steady (fun _ => [ {| title := "Dune Part Two"; link := "http://x/1" |} ]) in
  let s := state_of (subscribe env 42 ["alice"] (boot no_files)) in
  synced s
  /\ check_for_new_movies env s
     = Returned tt (state_of (check_for_new_movies env s))
  /\ synced (state_of (check_for_new_movies env s)).
Proof.
  intros env s.
  assert (Hs : synced s) by reflexivity.
  exact (conj Hs (conj eq_refl
           (proj1 (proj2 (proj2 (proj2 (files_follow_memory env s Hs))))
              (state_of (check_for_new_movies env s)) eq_refl))).
Defined.

(** ** Restarts *)

Section Restart.

Lemma set_In {K V} `{HashableLaws K} (k k' : K) (v v' : V) (d : PyDict.dict K V) :
  In (k', v') (PyDict.set k v d) -> (k', v') = (k, v) \/ In (k', v') d.
Proof.
  induction d as [|[k0 v0] d IH]; simpl.
  - intros [[= <- <-]|[]]. now left.
  - destruct (keq_spec k k0) as [->|Hne]; simpl.
    + intros [[= <- <-]|Hin]; [now left | right; now right].
    + intros [Heq|Hin]; [right; now left|].
      destruct (IH Hin) as [Heq|Hin']; [now left | right; now right].
Qed.

Lemma assign_all_In {K V} `{HashableLaws K} (ups : list (K * V)) :
  forall (d : PyDict.dict K V) kv,
    In kv (assign_all ups d) -> In kv d \/ In kv ups.
Proof.
  induction ups as [|[k v] ups IH]; intros d [k' v'] Hin; simpl in *; [now left|].
  destruct (IH _ _ Hin) as [Hd|Hups]; [|right; now right].
  destruct (set_In _ _ _ _ _ Hd) as [Heq|Hd']; [right; now left | now left].
Qed.

Lemma str_keyed_names (users : PyDict.dict key string) :
  str_keyed users = true ->
  map (fun kv => (KStr (Json.key_name (fst kv)), snd kv)) users = users.
Proof.
  induction users as [|[[n|x] v] users IH]; simpl; [reflexivity|discriminate|].
  intros Hstr. now rewrite IH.
Qed.

Lemma str_keyed_names_distinct (users : PyDict.dict key string) :
  str_keyed users = true -> PyDict.wf users ->
  NoDup (map Json.key_name (PyDict.keys users)).
Proof.
  intros Hstr Hwf.
  apply (NoDup_map_inv KStr). rewrite map_map.
  unfold PyDict.wf, PyDict.keys in *.
  rewrite <- (str_keyed_names users Hstr) in Hwf.
  rewrite map_map in Hwf. simpl in Hwf.
  now rewrite map_map.
Qed.

Lemma startup_str_keyed (d : Disk) : str_keyed (subscribed_users (startup d)) = true.
Proof.
  unfold startup, load_data. simpl.
  destruct (users_json d) as [o|]; simpl;
    destruct (last_logged_movies_json d); simpl; try reflexivity;
    induction (Json.load o) as [|[k v] l IH]; simpl; auto.
Qed.

Lemma str_keyed_get_int (users : PyDict.dict key string) (c : Z) :
  str_keyed users = true -> PyDict.get (KInt c) users = None.
Proof.
  induction users as [|[[n|x] v] users IH]; simpl;
    [reflexivity | discriminate | exact IH].
Qed.

(** The usernames watched after a start are among those written to the
    file. *)
Lemma startup_users_In (s : State) (k : key) (u : string) :
  synced s ->
  In (k, u) (subscribed_users (startup (disk s))) ->
  exists d, In (d, u) (subscribed_users s).
Proof.
  intros Hs. unfold startup, load_data. rewrite Hs. simpl.
  intros Hin. apply in_map_iff in Hin. destruct Hin as ([x v] & [= <- <-] & Hin).
  unfold Json.load, PyDict.of_pairs in Hin.
  destruct (assign_all_In _ [] _ Hin) as [[]|Hdump].
  unfold Json.dump in Hdump. apply in_map_iff in Hdump.
  destruct Hdump as ([d w] & [= _ <-] & Hd). now exists d.
Qed.

Lemma startup_last (s : State) :
  synced s -> PyDict.wf (last_logged_movies s) ->
  last_logged_movies (startup (disk s)) = last_logged_movies s.
Proof.
  intros Hs Hwf. unfold startup, load_data. rewrite Hs. simpl.
  unfold Json.load. rewrite dump_str_keys. now apply of_pairs_items.
Qed.

End Restart.

(** X16. Registries whose keys are strings, as the registries of a process that
    has been restarted are, come back from a successful save exactly as they
    were, order included. *)
Theorem str_keyed_registries_round_trip (env : Env) (s : State)
  (Hwf : registries_wf s)
  (Hstr : str_keyed (subscribed_users s) = true)
  (Hsaved : save_outcome env (now s) = WriteOk) :
  subscribed_users (startup (disk (state_of (save_data env s))))
  = subscribed_users s
  /\ last_logged_movies (startup (disk (state_of (save_data env s))))
     = last_logged_movies s.
Proof.
  destruct Hwf as [Hu Hl]. unfold startup. split.
  - rewrite (subscribed_users_after_restart env s Hsaved).
    + now apply str_keyed_names.
    + now apply str_keyed_names_distinct.
  - now apply last_logged_movies_survive_restart.
Qed.

Lemma str_keyed_registries_round_trip_witness :
  let env := steady (fun _ => []) in
  let s := fresh [(KStr "42", "alice"); (KStr "7", "bob")]
             [("alice", "Dune Part Two")] in
  registries_wf s
  /\ str_keyed (subscribed_users s) = true
  /\ save_outcome env (now s) = WriteOk
  /\ subscribed_users (startup (disk (state_of (save_data env s))))
     = subscribed_users s
  /\ last_logged_movies (startup (disk (state_of (save_data env s))))
     = last_logged_movies s.
Proof.
  intros env s.
  assert (Hwf : registries_wf s).
  { split; repeat constructor; simpl; intuition discriminate. }
  exact (conj Hwf (conj eq_refl (conj eq_refl
           (str_keyed_registries_round_trip env s Hwf eq_refl eq_refl)))).
Defined.

(** X17. After a start from files that are absent or hold what [save_data]
    writes (a JSON object with string values), every key of
    [subscribed_users] is a string, so no chat id is found in it: for every
    chat, [list_subscriptions] and [unsubscribe] give the not-subscribed
    answers and the registry keeps all its items. *)
Theorem startup_finds_no_chat_id (env : Env) (d : Disk) (c : Z) :
  str_keyed (subscribed_users (startup d)) = true
  /\ PyDict.get (KInt c) (subscribed_users (startup d)) = None
  /\ list_subscriptions env c (startup d)
     = reply_text env c "You are not subscribed to any usernames." (startup d)
  /\ unsubscribe env c (startup d)
     = reply_text env c "You are not subscribed." (startup d)
  /\ subscribed_users (state_of (unsubscribe env c (startup d)))
     = subscribed_users (startup d).
Proof.
  pose proof (startup_str_keyed d) as Hstr.
  pose proof (str_keyed_get_int _ c Hstr) as Hget.
  repeat split; try assumption.
  - now apply list_subscriptions_absent.
  - now apply unsubscribe_absent.
  - rewrite unsubscribe_users. apply del_absent.
    unfold PyDict.mem. now rewrite Hget.
Qed.

(** X18. Markers survive a restart: when the files are in step with memory and
    every marker is up to date with the feeds that the new process will
    read, the first tick after the start sends nothing and changes no
    registry. *)
Theorem restart_keeps_dedup (env : Env) (s : State)
  (Hsynced : synced s)
  (Hwf : PyDict.wf (last_logged_movies s))
  (Hup : up_to_date env 0 (subscribed_users s) (last_logged_movies s)) :
  check_for_new_movies env (startup (disk s))
  = Returned tt
      (later (List.length (subscribed_users (startup (disk s))))
         (startup (disk s))).
Proof.
  unfold check_for_new_movies, bind, gets. apply for_items_quiet.
  rewrite (startup_last s Hsynced Hwf).
  intros k u Hin t e es _ Hfeed.
  destruct (startup_users_In s k u Hsynced Hin) as [d Hd].
  apply (Hup d u Hd t e es); [lia | assumption].
Qed.

Lemma restart_keeps_dedup_witness :
  let env := steady (fun _ => [ {| title := "Dune Part Two"; link := "http://x/1" |} ]) in
  let s := state_of (check_for_new_movies env
                       (state_of (subscribe env 42 ["alice"] (boot no_files)))) in
  synced s
  /\ PyDict.wf (last_logged_movies s)
  /\ up_to_date env 0 (subscribed_users s) (last_logged_movies s)
  /\ outbox (state_of (check_for_new_movies env (startup (disk s)))) = []
  /\ check_for_new_movies env (startup (disk s))
     = Returned tt (later 1 (startup (disk s))).
Proof.
  intros env s.
  assert (Hwf : PyDict.wf (last_logged_movies s)).
  { repeat constructor. simpl. tauto. }
  assert (Hup : up_to_date env 0 (subscribed_users s) (last_logged_movies s)).
  { intros d u [[= <- <-]|[]] t e es _ [= <- <-]. reflexivity. }
  exact (conj eq_refl (conj Hwf (conj Hup (conj eq_refl
           (restart_keeps_dedup env s eq_refl Hwf Hup))))).
Defined.

Section FilesAfterRestart.
Variable env : Env.

Lemma dump_loaded_users (o : Json.object) :
  Json.dump Json.key_name (map (fun kv => (KStr (fst kv), snd kv)) o) = o.
Proof.
  unfold Json.dump. rewrite map_map. simpl.
  induction o as [|[k v] o IH]; simpl; [reflexivity | now rewrite IH].
Qed.

Lemma subscribe_returned d identity rest s s1 :
  subscribe env d (identity :: rest) s = Returned tt s1 ->
  synced s1
  /\ subscribed_users s1 = PyDict.set (KInt d) identity (subscribed_users s).
Proof.
  intros Hrun.
  pose proof (subscribe_registries env d identity rest s) as Hreg.
  cbv zeta in Hreg. rewrite Hrun in Hreg. simpl in Hreg.
  split; [|apply Hreg].
  revert Hrun. unfold subscribe, bind, modify.
  destruct (save_data env _) as [[] s2|x s2] eqn:Hsave; [|discriminate].
  apply save_data_returned in Hsave. destruct Hsave as (Hs2 & _).
  intros Hrun.
  pose proof (bot_send_synced env
                (Reply d ("Subscribed to updates for " ++ identity ++ "!")%string)
                s2 Hs2) as Hs1.
  unfold reply_text in Hrun. now rewrite Hrun in Hs1.
Qed.

Lemma get_some_In {K V} `{HashableLaws K} (k : K) (v : V) (d : PyDict.dict K V) :
  PyDict.get k d = Some v -> In (k, v) d.
Proof.
  induction d as [|[k' v'] d IH]; simpl; [discriminate|].
  destruct (keq_spec k k') as [->|Hne].
  - intros [= ->]. now left.
  - intros Hget. right. now apply IH.
Qed.

Lemma startup_users_of_synced s :
  synced s ->
  NoDup (map Json.key_name (PyDict.keys (subscribed_users s))) ->
  subscribed_users (startup (disk s))
  = map (fun kv => (KStr (Json.key_name (fst kv)), snd kv)) (subscribed_users s).
Proof.
  intros Hs Hnames. unfold startup, load_data. rewrite Hs. simpl.
  unfold Json.load. rewrite of_pairs_items.
  - unfold Json.dump. now rewrite map_map.
  - unfold PyDict.wf, PyDict.keys, Json.dump. rewrite map_map. simpl.
    unfold PyDict.keys in Hnames. now rewrite map_map in Hnames.
Qed.

End FilesAfterRestart.

(** X19. Loading two files whose objects have no repeated member name and
    saving at once writes the same two files: a restart does not alter what
    is stored. *)
Theorem load_then_save_rewrites_files
  (env : Env) (users last : Json.object)
  (Husers : NoDup (map fst users)) (Hlast : NoDup (map fst last))
  (Hsaved : save_outcome env 0 = WriteOk) :
  disk (state_of (save_data env
                    (startup {| users_json := Some users;
                                last_logged_movies_json := Some last |})))
  = {| users_json := Some users; last_logged_movies_json := Some last |}.
Proof.
  rewrite save_data_written by exact Hsaved.
  unfold startup, load_data, Json.load. simpl.
  rewrite !of_pairs_items by assumption.
  now rewrite dump_loaded_users, dump_str_keys.
Qed.

Lemma load_then_save_rewrites_files_witness :
  NoDup (map fst [("42", "alice"); ("7", "bob")])
  /\ NoDup (map fst [("alice", "Dune Part Two")])
  /\ save_outcome (steady (fun _ => [])) 0 = WriteOk
  /\ disk (state_of (save_data (steady (fun _ => []))
                       (startup {| users_json := Some [("42", "alice"); ("7", "bob")];
                                   last_logged_movies_json :=
                                     Some [("alice", "Dune Part Two")] |})))
     = {| users_json := Some [("42", "alice"); ("7", "bob")];
          last_logged_movies_json := Some [("alice", "Dune Part Two")] |}.
Proof.
  assert (Hu : NoDup (map fst [("42", "alice"); ("7", "bob")])).
  { repeat constructor; simpl; intuition discriminate. }
  assert (Hl : NoDup (map fst [("alice", "Dune Part Two")])).
  { repeat constructor; simpl; tauto. }
  exact (conj Hu (conj Hl (conj eq_refl
           (load_then_save_rewrites_files (steady (fun _ => []))
              [("42", "alice"); ("7", "bob")] [("alice", "Dune Part Two")]
              Hu Hl eq_refl)))).
Defined.

(** X20. A subscription survives a restart as far as the tick is concerned:
    after a [subscribe] that returned, a new process finds the identity
    under the decimal text of the chat id, provided no two keys of the
    registry are written under one name. *)
Theorem subscription_survives_restart
  (env : Env) (s s1 : State) (d : Z) (identity : string) (rest : list string)
  (Hrun : subscribe env d (identity :: rest) s = Returned tt s1)
  (Hnames : NoDup (map Json.key_name (PyDict.keys (subscribed_users s1)))) :
  In (KStr (Json.str_of_int d), identity) (subscribed_users (startup (disk s1)))
  /\ watching identity (subscribed_users (startup (disk s1))) <> [].
Proof.
  destruct (subscribe_returned env d identity rest s s1 Hrun) as [Hs1 Hu].
  assert (Hin : In (KStr (Json.str_of_int d), identity)
                  (subscribed_users (startup (disk s1)))).
  { rewrite (startup_users_of_synced s1 Hs1 Hnames).
    apply in_map_iff. exists (KInt d, identity). split; [reflexivity|].
    apply get_some_In. rewrite Hu. apply get_set_same. }
  split; [exact Hin | now apply (in_watching _ _ _ Hin)].
Qed.

Lemma subscription_survives_restart_witness :
  let env := steady (fun _ => []) in
  let s1 := state_of (subscribe env 42 ["alice"] (boot no_files)) in
  subscribe env 42 ["alice"] (boot no_files) = Returned tt s1
  /\ NoDup (map Json.key_name (PyDict.keys (subscribed_users s1)))
  /\ In (KStr "42", "alice") (subscribed_users (startup (disk s1))).
Proof.
  intros env s1.
  assert (Hnames : NoDup (map Json.key_name (PyDict.keys (subscribed_users s1)))).
  { repeat constructor. simpl. tauto. }
  exact (conj eq_refl (conj Hnames
           (proj1 (subscription_survives_restart env (boot no_files) s1 42
                     "alice" [] eq_refl Hnames)))).
Defined.

(** X21. When the feed of an identity keeps the same latest entry and its title
    differs from the marker, a tick that runs to its end delivers exactly
    one notification about the identity, with the title and the link of
    that entry, to the first destination that watches it in iteration
    order, and leaves the title as marker; an identity that nobody watches
    gets no notification and keeps its marker. *)
Theorem new_item_is_announced_once
  (env : Env) (s s1 : State) (identity : string) (e : entry)
  (Hfeed : latest_is env (now s) identity e)
  (Hnew : differs (PyDict.get identity (last_logged_movies s)) (title e) = true)
  (Hrun : check_for_new_movies env s = Returned tt s1) :
  filter (is_notice_about identity) (outbox s1)
  = filter (is_notice_about identity) (outbox s)
      ++ match watching identity (subscribed_users s) with
         | (d, _) :: _ => [Notice d identity (title e) (link e)]
         | [] => []
         end
  /\ PyDict.get identity (last_logged_movies s1)
     = match watching identity (subscribed_users s) with
       | _ :: _ => Some (title e)
       | [] => PyDict.get identity (last_logged_movies s)
       end.
Proof.
  unfold check_for_new_movies, bind, gets in Hrun.
  destruct (for_items_notices env identity e _ _ _ Hfeed Hrun) as (Hout & Hmark & _).
  rewrite Hnew in Hout. now split.
Qed.

Lemma new_item_is_announced_once_witness :
  let env := steady (fun _ => [ {| title := "Movie A"; link := "http://x/a" |} ]) in
  let s := fresh [(KInt 7, "bob"); (KInt 42, "alice")] [("alice", "Dune Part Two")] in
  let s1 := state_of (check_for_new_movies env s) in
  latest_is env (now s) "alice" {| title := "Movie A"; link := "http://x/a" |}
  /\ differs (PyDict.get "alice" (last_logged_movies s)) "Movie A" = true
  /\ check_for_new_movies env s = Returned tt s1
  /\ filter (is_notice_about "alice") (outbox s1)
     = [Notice (KInt 42) "alice" "Movie A" "http://x/a"].
Proof.
  intros env s s1.
  assert (Hfeed : latest_is env (now s) "alice"
                    {| title := "Movie A"; link := "http://x/a" |}).
  { intros t _. now exists []. }
  exact (conj Hfeed (conj eq_refl (conj eq_refl
           (proj1 (new_item_is_announced_once env s s1 "alice"
                     {| title := "Movie A"; link := "http://x/a" |}
                     Hfeed eq_refl eq_refl))))).
Defined.
